(** * Semantic-Scholar-MCP-Server: request gateway and tool facade

    A shallow embedding of [server.py].  Python values are an inductive
    type, Python [str] is Rocq [string] (one [ascii] per code point, so the
    strings covered are those whose code points lie below 256), Python
    [int] is [Z].  The one effect of the program, the call
    [requests.request], is modelled by a state-and-error monad over a
    [World] that holds the process environment, the configuration file,
    the upstream service and the log of the calls sent so far. *)

From Stdlib Require Import String Ascii List ZArith NArith Bool Lia.
From Stdlib Require Import DecimalString.
Import ListNotations.

Local Open Scope string_scope.
Local Open Scope Z_scope.

(** ** Python strings *)

Module PyStr.

(** [str.isspace] on one code point below 256: U+0009..U+000D,
    U+001C..U+0020, U+0085 and U+00A0. *)
Definition isspace (c : ascii) : bool :=
  let n := N_of_ascii c in
  ((9 <=? n) && (n <=? 13) || (28 <=? n) && (n <=? 32)
   || (n =? 133) || (n =? 160))%N.

(** [s.lstrip()] *)
Fixpoint lstrip (s : string) : string :=
  match s with
  | EmptyString => EmptyString
  | String c r => if isspace c then lstrip r else s
  end.

(** [s.rstrip()]: a trailing run of white space is dropped. *)
Fixpoint rstrip (s : string) : string :=
  match s with
  | EmptyString => EmptyString
  | String c r =>
      match rstrip r with
      | EmptyString => if isspace c then EmptyString else String c EmptyString
      | r' => String c r'
      end
  end.

(** [s.strip()] *)
Definition strip (s : string) : string := rstrip (lstrip s).

(** [s.lstrip(chars)] and [s.rstrip(chars)] for a one-character [chars]. *)
Fixpoint lstrip_char (x : ascii) (s : string) : string :=
  match s with
  | EmptyString => EmptyString
  | String c r => if Ascii.eqb c x then lstrip_char x r else s
  end.

Fixpoint rstrip_char (x : ascii) (s : string) : string :=
  match s with
  | EmptyString => EmptyString
  | String c r =>
      match rstrip_char x r with
      | EmptyString => if Ascii.eqb c x then EmptyString else String c EmptyString
      | r' => String c r'
      end
  end.

(** [sep.join(parts)] *)
Fixpoint join (sep : string) (parts : list string) : string :=
  match parts with
  | [] => EmptyString
  | [p] => p
  | p :: rest => p ++ sep ++ join sep rest
  end.

(** [c in s] for a character. *)
Fixpoint mem (x : ascii) (s : string) : bool :=
  match s with
  | EmptyString => false
  | String c r => Ascii.eqb c x || mem x r
  end.

(** [needle in hay] for strings, as a proposition and as a test. *)
Definition contains (hay needle : string) : Prop :=
  exists pre post, hay = pre ++ needle ++ post.

Fixpoint containsb (hay needle : string) : bool :=
  String.prefix needle hay
  || match hay with
     | EmptyString => false
     | String _ r => containsb r needle
     end.

(** [s.upper()] on the letters that occur in method names. *)
Definition upper_char (c : ascii) : ascii :=
  let n := N_of_ascii c in
  if ((97 <=? n) && (n <=? 122))%N then ascii_of_N (n - 32) else c.

Fixpoint upper (s : string) : string :=
  match s with
  | EmptyString => EmptyString
  | String c r => String (upper_char c) (upper r)
  end.

(** [str(n)] for an integer. *)
Definition of_Z (z : Z) : string := NilZero.string_of_int (Z.to_int z).

Definition hex_digit (upper_case : bool) (n : N) : ascii :=
  if (n <? 10)%N then ascii_of_N (48 + n)
  else ascii_of_N ((if upper_case then 55 else 87) + n).

(** Two hexadecimal digits of a byte. *)
Definition hex2 (upper_case : bool) (n : N) : string :=
  String (hex_digit upper_case (n / 16))
    (String (hex_digit upper_case (n mod 16)) EmptyString).

End PyStr.

(** ** Python values *)

(** The values that reach the program: tool arguments, the parsed
    configuration file and parsed JSON bodies.  A [dict] keeps its insertion
    order and has string keys, as every mapping of the source has. *)
#[warning="-register-all"]
Inductive PyVal : Type :=
| PNone
| PBool (b : bool)
| PInt (z : Z)
| PStr (s : string)
| PList (items : list PyVal)
| PTuple (items : list PyVal)
| PDict (entries : list (string * PyVal)).

Definition Dict : Type := list (string * PyVal).

Module Py.

(** [bool(v)] *)
Definition truthy (v : PyVal) : bool :=
  match v with
  | PNone => false
  | PBool b => b
  | PInt z => negb (z =? 0)
  | PStr s => negb (String.eqb s EmptyString)
  | PList l | PTuple l => negb (Nat.eqb (List.length l) 0)
  | PDict d => negb (Nat.eqb (List.length d) 0)
  end.

(** Truth of a string, and of an [Optional[str]]. *)
Definition nonempty (s : string) : bool := negb (String.eqb s EmptyString).

Definition truthy_opt (o : option string) : bool :=
  match o with
  | None => false
  | Some s => nonempty s
  end.

Definition squote : ascii := ascii_of_N 39.
Definition dquote : ascii := ascii_of_N 34.
Definition backslash : ascii := ascii_of_N 92.

Definition chr (c : ascii) : string := String c EmptyString.

(** One character of [repr(s)], [q] being the quote chosen for [s]. *)
Definition repr_char (q c : ascii) : string :=
  let n := N_of_ascii c in
  if Ascii.eqb c q || Ascii.eqb c backslash then String backslash (chr c)
  else if (n =? 9)%N then String backslash "t"
  else if (n =? 10)%N then String backslash "n"
  else if (n =? 13)%N then String backslash "r"
  else if ((n <? 32) || (n =? 127))%N then String backslash ("x" ++ PyStr.hex2 false n)
  else if (n <? 127)%N then chr c
  else if ((n <=? 160) || (n =? 173))%N then String backslash ("x" ++ PyStr.hex2 false n)
  else chr c.

Fixpoint repr_chars (q : ascii) (s : string) : string :=
  match s with
  | EmptyString => EmptyString
  | String c r => repr_char q c ++ repr_chars q r
  end.

(** [repr(s)] for a string: single quotes, unless the string has a single
    quote and no double quote. *)
Definition repr_str (s : string) : string :=
  let q := if PyStr.mem squote s && negb (PyStr.mem dquote s)
           then dquote else squote in
  String q (repr_chars q s ++ chr q).

(** [repr(v)] *)
Fixpoint repr (v : PyVal) : string :=
  let fix reprs (l : list PyVal) : list string :=
    match l with
    | [] => []
    | x :: r => repr x :: reprs r
    end in
  let fix repr_items (d : list (string * PyVal)) : list string :=
    match d with
    | [] => []
    | (k, x) :: r => (repr_str k ++ ": " ++ repr x) :: repr_items r
    end in
  match v with
  | PNone => "None"
  | PBool true => "True"
  | PBool false => "False"
  | PInt z => PyStr.of_Z z
  | PStr s => repr_str s
  | PList l => "[" ++ PyStr.join ", " (reprs l) ++ "]"
  | PTuple [x] => "(" ++ repr x ++ ",)"
  | PTuple l => "(" ++ PyStr.join ", " (reprs l) ++ ")"
  | PDict d => "{" ++ PyStr.join ", " (repr_items d) ++ "}"
  end.

(** [str(v)]: a string is itself, anything else is its [repr]. *)
Definition str (v : PyVal) : string :=
  match v with
  | PStr s => s
  | _ => repr v
  end.

(** [d.get(k, default)] *)
Fixpoint get (d : Dict) (k : string) : option PyVal :=
  match d with
  | [] => None
  | (k', v) :: r => if String.eqb k' k then Some v else get r k
  end.

Definition get_default (d : Dict) (k : string) (dflt : PyVal) : PyVal :=
  match get d k with
  | Some v => v
  | None => dflt
  end.

(** [d[k] = v]: an existing key keeps its place, a new one goes last. *)
Fixpoint set (d : Dict) (k : string) (v : PyVal) : Dict :=
  match d with
  | [] => [(k, v)]
  | (k', v') :: r =>
      if String.eqb k' k then (k', v) :: r else (k', v') :: set r k v
  end.

(** [if cond: d[k] = v] *)
Definition set_if (cond : bool) (d : Dict) (k : string) (v : PyVal) : Dict :=
  if cond then set d k v else d.

Definition has_key (d : Dict) (k : string) : bool :=
  match get d k with
  | Some _ => true
  | None => false
  end.

(** [int(b)] for an [int] instance, which a [bool] is. *)
Definition int_of_bool (b : bool) : Z := if b then 1 else 0.

End Py.

(** ** [json.dumps(v, ensure_ascii=False)] *)

Module Json.

Definition dumps_char (c : ascii) : string :=
  let n := N_of_ascii c in
  if Ascii.eqb c Py.dquote || Ascii.eqb c Py.backslash
  then String Py.backslash (Py.chr c)
  else if (n =? 10)%N then String Py.backslash "n"
  else if (n =? 13)%N then String Py.backslash "r"
  else if (n =? 9)%N then String Py.backslash "t"
  else if (n =? 8)%N then String Py.backslash "b"
  else if (n =? 12)%N then String Py.backslash "f"
  else if (n <? 32)%N then String Py.backslash ("u00" ++ PyStr.hex2 false n)
  else Py.chr c.

Fixpoint dumps_chars (s : string) : string :=
  match s with
  | EmptyString => EmptyString
  | String c r => dumps_char c ++ dumps_chars r
  end.

Definition dumps_str (s : string) : string :=
  String Py.dquote (dumps_chars s ++ Py.chr Py.dquote).

Fixpoint dumps (v : PyVal) : string :=
  let fix items (l : list PyVal) : list string :=
    match l with
    | [] => []
    | x :: r => dumps x :: items r
    end in
  let fix members (d : list (string * PyVal)) : list string :=
    match d with
    | [] => []
    | (k, x) :: r => (dumps_str k ++ ": " ++ dumps x) :: members r
    end in
  match v with
  | PNone => "null"
  | PBool true => "true"
  | PBool false => "false"
  | PInt z => PyStr.of_Z z
  | PStr s => dumps_str s
  | PList l | PTuple l => "[" ++ PyStr.join ", " (items l) ++ "]"
  | PDict d => "{" ++ PyStr.join ", " (members d) ++ "}"
  end.

End Json.

(** ** The world outside the process *)

(** The arguments of one [requests.request] call. *)
Record HttpRequest : Type := mkRequest {
  rq_method : string;
  rq_url : string;
  rq_params : option Dict;
  rq_json : option Dict;
  rq_headers : list (string * string);
  rq_timeout : Z
}.

(** What the program reads of a response: [resp.status_code], [resp.text]
    and [resp.json()], [None] standing for the exception [resp.json()]
    raises on a body that is not JSON. *)
Record Response : Type := mkResponse {
  status_code : Z;
  text : string;
  json : option PyVal
}.

Inductive PyExc : Type :=
| ValueError (msg : string)
| RuntimeError (msg : string)
| RequestException (msg : string).

(** [config.yaml] next to the module: absent, present but failing in [open]
    or [yaml.safe_load], or loaded. *)
Inductive ConfigFile : Type :=
| CfgAbsent
| CfgBroken
| CfgLoaded (data : PyVal).

Record World : Type := mkWorld {
  environ : list (string * string);
  config_yaml : ConfigFile;
  upstream : HttpRequest -> string + Response;
  sent : list HttpRequest
}.

(** ** A state and exception monad *)

Definition M (A : Type) : Type := World -> (PyExc + A) * World.

Definition ret {A} (a : A) : M A := fun w => (inr a, w).

Definition raise {A} (e : PyExc) : M A := fun w => (inl e, w).

Definition bind {A B} (m : M A) (k : A -> M B) : M B :=
  fun w =>
    match m w with
    | (inl e, w') => (inl e, w')
    | (inr a, w') => k a w'
    end.

Notation "x <- m ;; k" := (bind m (fun x => k))
  (at level 61, m at next level, right associativity).
Notation "m ;;; k" := (bind m (fun _ => k))
  (at level 61, right associativity).

Definition gets {A} (f : World -> A) : M A := fun w => (inr (f w), w).

(** [if cond: raise e] *)
Definition raise_if (cond : bool) (e : PyExc) : M unit :=
  if cond then raise e else ret tt.

(** [requests.request(...)]: the call is logged and answered by the
    upstream, with a response or with the failure of the HTTP client
    (no connection, timeout), which the client raises. *)
Definition requests_request (rq : HttpRequest) : M Response :=
  fun w =>
    (match upstream w rq with
     | inl failure => inl (RequestException failure)
     | inr resp => inr resp
     end,
     mkWorld (environ w) (config_yaml w) (upstream w) (sent w ++ [rq])).

(** The calls a computation sends from [w], and its outcome. *)
Definition calls {A} (m : M A) (w : World) : list HttpRequest :=
  skipn (List.length (sent w)) (sent (snd (m w))).

Definition outcome {A} (m : M A) (w : World) : PyExc + A := fst (m w).

(** ** Internal configuration helpers *)

Definition _BASE_URL : string := "https://api.semanticscholar.org/graph/v1".

(** [os.getenv(name)] *)
Fixpoint getenv (env : list (string * string)) (name : string) : option string :=
  match env with
  | [] => None
  | (k, v) :: r => if String.eqb k name then Some v else getenv r name
  end.

(** The part of [_load_api_key] that reads [config.yaml]. *)
Definition load_config_key (cfg : ConfigFile) : option string :=
  match cfg with
  | CfgAbsent => None
  | CfgBroken => None
  | CfgLoaded loaded =>
      let data := if Py.truthy loaded then loaded else PDict [] in
      let key := match data with
                 | PDict d => Py.get_default d "semantic_scholar" (PDict [])
                 | _ => PDict []
                 end in
      let api_key := match key with
                     | PDict d => Py.get_default d "api_key" PNone
                     | _ => PNone
                     end in
      if Py.truthy api_key then Some (PyStr.strip (Py.str api_key)) else None
  end.

Definition _load_api_key (w : World) : option string :=
  match getenv (environ w) "SEMANTIC_SCHOLAR_API_KEY" with
  | Some env_key =>
      if Py.nonempty env_key then Some (PyStr.strip env_key)
      else load_config_key (config_yaml w)
  | None => load_config_key (config_yaml w)
  end.

(** The headers of a call, given the key that was resolved. *)
Definition request_headers (api_key : option string) : list (string * string) :=
  [("Accept", "application/json")]
  ++ (if Py.truthy_opt api_key
      then match api_key with
           | Some k => [("x-api-key", k)]
           | None => []
           end
      else []).

Definition request_url (path : string) : string :=
  PyStr.rstrip_char "/" _BASE_URL ++ "/" ++ PyStr.lstrip_char "/" path.

(** The payload of an error response: its JSON, or its text under
    [message]. *)
Definition error_payload (resp : Response) : PyVal :=
  match json resp with
  | Some payload => payload
  | None => PDict [("message", PStr (text resp))]
  end.

Definition error_message (status : Z) (url : string) (payload : PyVal) : string :=
  "Semantic Scholar API error " ++ PyStr.of_Z status ++ " for " ++ url
  ++ ": " ++ Py.str payload.

Definition is_2xx (status : Z) : bool := (200 <=? status) && (status <? 300).

Definition _request_json (method path : string)
    (params json_body : option Dict) : M PyVal :=
  let url := request_url path in
  api_key <- gets _load_api_key ;;
  let headers := request_headers api_key in
  resp <- requests_request
            (mkRequest (PyStr.upper method) url params json_body headers 30) ;;
  if negb (is_2xx (status_code resp)) then
    raise (RuntimeError
             (error_message (status_code resp) url (error_payload resp)))
  else
    match json resp with
    | Some data => ret data
    | None => ret (PDict [("raw", PStr (text resp))])
    end.

(** The entries a loop [for f in fields] visits: the items of a list or a
    tuple, the keys of a dict, the characters of a string; nothing else is
    iterable. *)
Definition iterate (v : PyVal) : option (list PyVal) :=
  match v with
  | PList l | PTuple l => Some l
  | PDict d => Some (map (fun kv => PStr (fst kv)) d)
  | PStr s => Some (map (fun c => PStr (Py.chr c)) (list_ascii_of_string s))
  | PNone | PBool _ | PInt _ => None
  end.

(** [[str(f).strip() for f in fields if str(f).strip()]] *)
Fixpoint stripped_entries (l : list PyVal) : list string :=
  match l with
  | [] => []
  | f :: r =>
      if Py.nonempty (PyStr.strip (Py.str f))
      then PyStr.strip (Py.str f) :: stripped_entries r
      else stripped_entries r
  end.

(** [x or None] for a string [x]. *)
Definition or_None (s : string) : option string :=
  if Py.nonempty s then Some s else None.

Definition _normalize_fields (fields : PyVal) : option string :=
  match fields with
  | PNone => None
  | PStr s => Some s
  | _ =>
      match iterate fields with
      | Some l => or_None (PyStr.join "," (stripped_entries l))
      | None => None
      end
  end.

(** ** [urllib.parse.quote] *)

Module Urllib.

(** Bytes that [quote] never escapes: letters, digits and [_.-~]; the
    default [safe] adds the slash. *)
Definition always_safe (n : N) : bool :=
  ((65 <=? n) && (n <=? 90) || (97 <=? n) && (n <=? 122)
   || (48 <=? n) && (n <=? 57)
   || (n =? 95) || (n =? 46) || (n =? 45) || (n =? 126))%N.

Definition is_safe (n : N) : bool := always_safe n || (n =? 47)%N.

(** UTF-8 bytes of a code point below 256. *)
Definition utf8 (c : ascii) : list N :=
  let n := N_of_ascii c in
  if (n <? 128)%N then [n] else [192 + n / 64; 128 + n mod 64]%N.

Definition quote_byte (n : N) : string :=
  if is_safe n then Py.chr (ascii_of_N n) else "%" ++ PyStr.hex2 true n.

Fixpoint quote (s : string) : string :=
  match s with
  | EmptyString => EmptyString
  | String c r => String.concat EmptyString (map quote_byte (utf8 c)) ++ quote r
  end.

End Urllib.

(** ** MCP tools *)

(** [not isinstance(v, str) or not v.strip()] *)
Definition not_a_nonblank_str (v : PyVal) : bool :=
  match v with
  | PStr s => negb (Py.nonempty (PyStr.strip s))
  | _ => true
  end.

(** The guard on a required string: raise [e] unless [v] is a string that
    is not blank, and go on with that string. *)
Definition require_str (v : PyVal) (e : PyExc) : M string :=
  match v with
  | PStr s => if not_a_nonblank_str v then raise e else ret s
  | _ => raise e
  end.

(** [isinstance(v, (list, tuple))], with the items. *)
Definition as_list_or_tuple (v : PyVal) : option (list PyVal) :=
  match v with
  | PList l | PTuple l => Some l
  | _ => None
  end.

(** The loop that checks every item and collects the stripped ones. *)
Fixpoint clean_items (e : PyExc) (l : list PyVal) : M (list string) :=
  match l with
  | [] => ret []
  | x :: r =>
      s <- require_str x e ;;
      rest <- clean_items e r ;;
      ret (PyStr.strip s :: rest)
  end.

(** The three guards of a list-bearing tool. *)
Definition require_str_list (v : PyVal) (bound : Z)
    (e_empty e_bound e_item : PyExc) : M (list string) :=
  match as_list_or_tuple v with
  | None => raise e_empty
  | Some l =>
      raise_if (Nat.eqb (List.length l) 0) e_empty ;;;
      raise_if (bound <? Z.of_nat (List.length l)) e_bound ;;;
      clean_items e_item l
  end.

Definition str_list (l : list string) : PyVal := PList (map PStr l).

(** The value stored for a normalized selector that is known to be true. *)
Definition opt_str (o : option string) : PyVal :=
  match o with
  | Some s => PStr s
  | None => PNone
  end.

(** [if norm: d[k] = norm] *)
Definition set_norm (d : Dict) (k : string) (norm : option string) : Dict :=
  Py.set_if (Py.truthy_opt norm) d k (opt_str norm).

(** [max(1, min(int(limit), bound))] and [max(0, int(offset))] *)
Definition clamp_limit (limit bound : Z) : Z := Z.max 1 (Z.min limit bound).
Definition clamp_offset (offset : Z) : Z := Z.max 0 offset.

Definition paging (limit offset : Z) : Dict :=
  [("limit", PInt (clamp_limit limit 100));
   ("offset", PInt (clamp_offset offset))].

Definition get_paper (paper_id fields : PyVal) : M string :=
  pid <- require_str paper_id
           (ValueError "Parameter 'paper_id' must be a non-empty string.") ;;
  let params := set_norm [] "fields" (_normalize_fields fields) in
  data <- _request_json "GET" ("/paper/" ++ Urllib.quote (PyStr.strip pid))
            (Some params) None ;;
  ret (Json.dumps data).

Definition get_papers_batch (paper_ids fields : PyVal) : M string :=
  clean_ids <- require_str_list paper_ids 1000
    (ValueError "Parameter 'paper_ids' must be a non-empty list of strings.")
    (ValueError "Parameter 'paper_ids' cannot exceed 1000 items per request.")
    (ValueError "Every item in 'paper_ids' must be a non-empty string.") ;;
  let body := [("ids", str_list clean_ids)] in
  let body := set_norm body "fields" (_normalize_fields fields) in
  data <- _request_json "POST" "/paper/batch" None (Some body) ;;
  ret (Json.dumps data).

Definition search_papers (query fields : PyVal) (limit offset : Z)
    (year open_access_pdf fields_of_study : PyVal) : M string :=
  let params := [("query", query);
                 ("limit", PInt (clamp_limit limit 100));
                 ("offset", PInt (clamp_offset offset))] in
  let params := set_norm params "fields" (_normalize_fields fields) in
  let params := Py.set_if (Py.truthy year) params "year" (PStr (Py.str year)) in
  let params :=
    match open_access_pdf with
    | PNone => params
    | _ => Py.set params "openAccessPdf"
             (PStr (if Py.truthy open_access_pdf then "true" else "false"))
    end in
  let params := set_norm params "fieldsOfStudy" (_normalize_fields fields_of_study) in
  data <- _request_json "GET" "/paper/search" (Some params) None ;;
  ret (Json.dumps data).

Definition search_papers_bulk (queries fields : PyVal) (limit offset : Z)
    : M string :=
  clean_q <- require_str_list queries 100
    (ValueError "Parameter 'queries' must be a non-empty list of strings.")
    (ValueError "Parameter 'queries' cannot exceed 100 items.")
    (ValueError "Every item in 'queries' must be a non-empty string.") ;;
  let page_limit := clamp_limit limit 100 in
  let page_offset := clamp_offset offset in
  let norm_fields := _normalize_fields fields in
  let body := [("queries", str_list clean_q);
               ("limit", PInt page_limit);
               ("offset", PInt page_offset)] in
  let body := set_norm body "fields" norm_fields in
  data <- _request_json "POST" "/paper/search/bulk" None (Some body) ;;
  ret (Json.dumps data).

(** [year is not None and (not isinstance(year, int) or year < 0)] *)
Definition bad_year (year : PyVal) : bool :=
  match year with
  | PNone => false
  | PInt z => z <? 0
  | PBool b => Py.int_of_bool b <? 0
  | _ => true
  end.

(** [int(year)] for a year that passed the guard. *)
Definition int_of (v : PyVal) : Z :=
  match v with
  | PInt z => z
  | PBool b => Py.int_of_bool b
  | _ => 0
  end.

Definition search_papers_match (title authors year venue fields : PyVal)
    (limit : Z) : M string :=
  ttl <- require_str title
           (ValueError "Parameter 'title' must be a non-empty string.") ;;
  raise_if (bad_year year)
    (ValueError "Parameter 'year' must be a non-negative integer if provided.") ;;;
  let max_limit := clamp_limit limit 20 in
  let norm_fields := _normalize_fields fields in
  let authors_norm := _normalize_fields authors in
  let body := [("title", PStr (PyStr.strip ttl)); ("limit", PInt max_limit)] in
  let body := set_norm body "authors" authors_norm in
  let body :=
    match year with
    | PNone => body
    | _ => Py.set body "year" (PInt (int_of year))
    end in
  let body := Py.set_if (Py.truthy venue) body "venue" (PStr (Py.str venue)) in
  let body := set_norm body "fields" norm_fields in
  data <- _request_json "POST" "/paper/search/match" None (Some body) ;;
  ret (Json.dumps data).

Definition paper_autocomplete (query : PyVal) (limit : Z) : M string :=
  q <- require_str query
         (ValueError "Parameter 'query' must be a non-empty string.") ;;
  let page_limit := clamp_limit limit 100 in
  let params := [("query", PStr (PyStr.strip q)); ("limit", PInt page_limit)] in
  data <- _request_json "GET" "/paper/autocomplete" (Some params) None ;;
  ret (Json.dumps data).

(** The three tools below [/paper/{paper_id}/] differ in the last segment
    of the path only. *)
Definition paper_listing (segment : string) (paper_id fields : PyVal)
    (limit offset : Z) : M string :=
  pid <- require_str paper_id
           (ValueError "Parameter 'paper_id' must be a non-empty string.") ;;
  let params := set_norm (paging limit offset) "fields" (_normalize_fields fields) in
  data <- _request_json "GET"
            ("/paper/" ++ Urllib.quote (PyStr.strip pid) ++ segment)
            (Some params) None ;;
  ret (Json.dumps data).

Definition get_paper_authors := paper_listing "/authors".
Definition get_paper_citations := paper_listing "/citations".
Definition get_paper_references := paper_listing "/references".

Definition get_author (author_id fields : PyVal) : M string :=
  aid <- require_str author_id
           (ValueError "Parameter 'author_id' must be a non-empty string.") ;;
  let params := set_norm [] "fields" (_normalize_fields fields) in
  data <- _request_json "GET" ("/author/" ++ Urllib.quote (PyStr.strip aid))
            (Some params) None ;;
  ret (Json.dumps data).

Definition get_authors_batch (author_ids fields : PyVal) : M string :=
  clean_ids <- require_str_list author_ids 1000
    (ValueError "Parameter 'author_ids' must be a non-empty list of strings.")
    (ValueError "Parameter 'author_ids' cannot exceed 1000 items.")
    (ValueError "Every item in 'author_ids' must be a non-empty string.") ;;
  let body := [("ids", str_list clean_ids)] in
  let body := set_norm body "fields" (_normalize_fields fields) in
  data <- _request_json "POST" "/author/batch" None (Some body) ;;
  ret (Json.dumps data).

Definition search_authors (query fields : PyVal) (limit offset : Z) : M string :=
  q <- require_str query
         (ValueError "Parameter 'query' must be a non-empty string.") ;;
  let params := [("query", PStr (PyStr.strip q));
                 ("limit", PInt (clamp_limit limit 100));
                 ("offset", PInt (clamp_offset offset))] in
  let params := set_norm params "fields" (_normalize_fields fields) in
  data <- _request_json "GET" "/author/search" (Some params) None ;;
  ret (Json.dumps data).

Definition get_author_papers (author_id fields : PyVal) (limit offset : Z)
    (sort : PyVal) : M string :=
  aid <- require_str author_id
           (ValueError "Parameter 'author_id' must be a non-empty string.") ;;
  let params := paging limit offset in
  let params := Py.set_if (Py.truthy sort) params "sort" (PStr (Py.str sort)) in
  let params := set_norm params "fields" (_normalize_fields fields) in
  data <- _request_json "GET"
            ("/author/" ++ Urllib.quote (PyStr.strip aid) ++ "/papers")
            (Some params) None ;;
  ret (Json.dumps data).

Definition snippet_search (query fields : PyVal) (limit offset : Z)
    (fields_of_study : PyVal) : M string :=
  q <- require_str query
         (ValueError "Parameter 'query' must be a non-empty string.") ;;
  let params := [("query", PStr (PyStr.strip q));
                 ("limit", PInt (clamp_limit limit 100));
                 ("offset", PInt (clamp_offset offset))] in
  let params := set_norm params "fields" (_normalize_fields fields) in
  let fos := _normalize_fields fields_of_study in
  let params := set_norm params "fieldsOfStudy" fos in
  data <- _request_json "GET" "/snippet/search" (Some params) None ;;
  ret (Json.dumps data).

(** ** The tool surface *)

(** The default of each tool's [fields] parameter. *)
Module Defaults.
Definition get_paper : PyVal :=
  PStr "title,authors,abstract,year,venue,externalIds,url,referenceCount,citationCount,fieldsOfStudy,openAccessPdf".
Definition get_papers_batch : PyVal := PStr "title,authors,year,venue,externalIds,url".
Definition search_papers : PyVal := PStr "title,authors,year,venue,externalIds,url".
Definition search_papers_bulk : PyVal := PStr "title,authors,year,venue,url".
Definition search_papers_match : PyVal := PStr "title,authors,year,venue,url,externalIds".
Definition get_paper_authors : PyVal :=
  PStr "authors.name,authors.authorId,authors.hIndex,authors.url".
Definition get_paper_citations : PyVal :=
  PStr "citingPaper.title,citingPaper.authors,citingPaper.year,citingPaper.url".
Definition get_paper_references : PyVal :=
  PStr "citedPaper.title,citedPaper.authors,citedPaper.year,citedPaper.url".
Definition get_author : PyVal :=
  PStr "name,authorId,affiliations,hIndex,homepage,url,paperCount,citationCount".
Definition get_authors_batch : PyVal := PStr "name,authorId,hIndex,url".
Definition search_authors : PyVal := PStr "name,authorId,hIndex,affiliations,url".
Definition get_author_papers : PyVal :=
  PStr "papers.title,papers.year,papers.venue,papers.url".
Definition snippet_search : PyVal := PStr "paperId,title,authors,year,url,abstract".
End Defaults.

(** One call of a registered tool, with its arguments. *)
Inductive ToolCall : Type :=
| GetPaper (paper_id fields : PyVal)
| GetPapersBatch (paper_ids fields : PyVal)
| SearchPapers (query fields : PyVal) (limit offset : Z)
    (year open_access_pdf fields_of_study : PyVal)
| SearchPapersBulk (queries fields : PyVal) (limit offset : Z)
| SearchPapersMatch (title authors year venue fields : PyVal) (limit : Z)
| PaperAutocomplete (query : PyVal) (limit : Z)
| GetPaperAuthors (paper_id fields : PyVal) (limit offset : Z)
| GetPaperCitations (paper_id fields : PyVal) (limit offset : Z)
| GetPaperReferences (paper_id fields : PyVal) (limit offset : Z)
| GetAuthor (author_id fields : PyVal)
| GetAuthorsBatch (author_ids fields : PyVal)
| SearchAuthors (query fields : PyVal) (limit offset : Z)
| GetAuthorPapers (author_id fields : PyVal) (limit offset : Z) (sort : PyVal)
| SnippetSearch (query fields : PyVal) (limit offset : Z) (fields_of_study : PyVal).

Definition call_tool (c : ToolCall) : M string :=
  match c with
  | GetPaper p f => get_paper p f
  | GetPapersBatch ps f => get_papers_batch ps f
  | SearchPapers q f l o y oa fos => search_papers q f l o y oa fos
  | SearchPapersBulk qs f l o => search_papers_bulk qs f l o
  | SearchPapersMatch t a y v f l => search_papers_match t a y v f l
  | PaperAutocomplete q l => paper_autocomplete q l
  | GetPaperAuthors p f l o => get_paper_authors p f l o
  | GetPaperCitations p f l o => get_paper_citations p f l o
  | GetPaperReferences p f l o => get_paper_references p f l o
  | GetAuthor a f => get_author a f
  | GetAuthorsBatch ids f => get_authors_batch ids f
  | SearchAuthors q f l o => search_authors q f l o
  | GetAuthorPapers a f l o s => get_author_papers a f l o s
  | SnippetSearch q f l o fos => snippet_search q f l o fos
  end.

(** The required string parameter of a call, by name, with its argument. *)
Definition required_string (c : ToolCall) : option (string * PyVal) :=
  match c with
  | GetPaper p _ => Some ("paper_id", p)
  | SearchPapers q _ _ _ _ _ _ => Some ("query", q)
  | SearchPapersMatch t _ _ _ _ _ => Some ("title", t)
  | PaperAutocomplete q _ => Some ("query", q)
  | GetPaperAuthors p _ _ _ => Some ("paper_id", p)
  | GetPaperCitations p _ _ _ => Some ("paper_id", p)
  | GetPaperReferences p _ _ _ => Some ("paper_id", p)
  | GetAuthor a _ => Some ("author_id", a)
  | SearchAuthors q _ _ _ => Some ("query", q)
  | GetAuthorPapers a _ _ _ _ => Some ("author_id", a)
  | SnippetSearch q _ _ _ _ => Some ("query", q)
  | GetPapersBatch _ _ | GetAuthorsBatch _ _ | SearchPapersBulk _ _ _ _ => None
  end.

Definition is_search_papers (c : ToolCall) : bool :=
  match c with
  | SearchPapers _ _ _ _ _ _ _ => true
  | _ => false
  end.

(** The list parameter of a call: name, argument and upper bound. *)
Definition list_parameter (c : ToolCall) : option (string * PyVal * Z) :=
  match c with
  | GetPapersBatch ps _ => Some ("paper_ids", ps, 1000)
  | GetAuthorsBatch ids _ => Some ("author_ids", ids, 1000)
  | SearchPapersBulk qs _ _ _ => Some ("queries", qs, 100)
  | _ => None
  end.

(** The [limit] of a call whose tool bounds it by 100, and the [offset] of
    a call that takes one. *)
Definition limit_argument (c : ToolCall) : option Z :=
  match c with
  | SearchPapers _ _ l _ _ _ _ => Some l
  | SearchPapersBulk _ _ l _ => Some l
  | PaperAutocomplete _ l => Some l
  | GetPaperAuthors _ _ l _ => Some l
  | GetPaperCitations _ _ l _ => Some l
  | GetPaperReferences _ _ l _ => Some l
  | SearchAuthors _ _ l _ => Some l
  | GetAuthorPapers _ _ l _ _ => Some l
  | SnippetSearch _ _ l _ _ => Some l
  | _ => None
  end.

Definition offset_argument (c : ToolCall) : option Z :=
  match c with
  | SearchPapers _ _ _ o _ _ _ => Some o
  | SearchPapersBulk _ _ _ o => Some o
  | GetPaperAuthors _ _ _ o => Some o
  | GetPaperCitations _ _ _ o => Some o
  | GetPaperReferences _ _ _ o => Some o
  | SearchAuthors _ _ _ o => Some o
  | GetAuthorPapers _ _ _ o _ => Some o
  | SnippetSearch _ _ _ o _ => Some o
  | _ => None
  end.

(** An empty string, a string of white space, or [None]. *)
Definition blank_or_none (v : PyVal) : bool :=
  match v with
  | PNone => true
  | PStr s => String.eqb (PyStr.strip s) EmptyString
  | _ => false
  end.

(** A list or tuple, not empty, within the bound, of strings that are not
    blank. *)
Definition good_str_list (bound : Z) (v : PyVal) : bool :=
  match as_list_or_tuple v with
  | None => false
  | Some l =>
      negb (Nat.eqb (List.length l) 0)
      && (Z.of_nat (List.length l) <=? bound)
      && forallb (fun x => negb (not_a_nonblank_str x)) l
  end.

(** Every guard of the call passes. *)
Definition preflight_ok (c : ToolCall) : bool :=
  match required_string c with
  | Some (_, v) => is_search_papers c || negb (not_a_nonblank_str v)
  | None => true
  end
  && match list_parameter c with
     | Some (_, v, bound) => good_str_list bound v
     | None => true
     end
  && match c with
     | SearchPapersMatch _ _ y _ _ _ => negb (bad_year y)
     | _ => true
     end.

(** The mapping a call carries: its query parameters, or else its body. *)
Definition carried (rq : HttpRequest) : Dict :=
  match rq_params rq, rq_json rq with
  | Some d, _ => d
  | None, Some d => d
  | None, None => []
  end.

(** The stripped text of each string of a list. *)
Fixpoint stripped (l : list PyVal) : list string :=
  match l with
  | [] => []
  | PStr s :: r => PyStr.strip s :: stripped r
  | _ :: r => stripped r
  end.

(** What [_request_json] makes of the answer of the upstream. *)
Definition gateway_result (url : string) (ans : string + Response) : PyExc + PyVal :=
  match ans with
  | inl failure => inl (RequestException failure)
  | inr resp =>
      if is_2xx (status_code resp) then
        match json resp with
        | Some data => inr data
        | None => inr (PDict [("raw", PStr (text resp))])
        end
      else inl (RuntimeError
                  (error_message (status_code resp) url (error_payload resp)))
  end.

(** The call [_request_json] sends in [w]. *)
Definition gateway_call (w : World) (method path : string)
    (params json_body : option Dict) : HttpRequest :=
  mkRequest (PyStr.upper method) (request_url path) params json_body
    (request_headers (_load_api_key w)) 30.

Definition is_value_error (r : PyExc + string) : bool :=
  match r with
  | inl (ValueError _) => true
  | _ => false
  end.

(** The world after something outside the process changed the environment
    and the configuration file. *)
Definition reconfigure (env : list (string * string)) (cfg : ConfigFile)
    (w : World) : World :=
  mkWorld env cfg (upstream w) (sent w).

(** The world once [rq] has been sent. *)
Definition log (w : World) (rq : HttpRequest) : World :=
  mkWorld (environ w) (config_yaml w) (upstream w) (sent w ++ [rq]).

(** [json.dumps] applied to the value a call returned. *)
Definition dumped (r : PyExc + PyVal) : PyExc + string :=
  match r with
  | inl e => inl e
  | inr data => inr (Json.dumps data)
  end.

(** ** Vocabulary of the statements *)

(** A list argument that a list-bearing tool refuses. *)
Inductive bad_list (bound : Z) (v : PyVal) : Prop :=
| NotAList : as_list_or_tuple v = None -> bad_list bound v
| EmptyList : as_list_or_tuple v = Some [] -> bad_list bound v
| TooLong (l : list PyVal) :
    as_list_or_tuple v = Some l -> bound < Z.of_nat (List.length l) ->
    bad_list bound v
| BadItem (l : list PyVal) (x : PyVal) :
    as_list_or_tuple v = Some l -> In x l -> not_a_nonblank_str x = true ->
    bad_list bound v.

(** The entries of a selector given as a sequence of strings, as the
    specification words them: each one stripped, the blank ones dropped,
    in the order of the caller. *)
Definition kept_entries (l : list string) : list string :=
  filter Py.nonempty (map PyStr.strip l).

(** A world with no key in the environment, no configuration file, nothing
    sent yet, and an upstream that answers every call with [resp]. *)
Definition stub_world (resp : Response) : World :=
  mkWorld [] CfgAbsent (fun _ => inr resp) [].

(** The body [{"message":"rate limited"}] and its parse. *)
Definition rate_limited_body : string :=
  "{" ++ Py.chr Py.dquote ++ "message" ++ Py.chr Py.dquote ++ ":"
  ++ Py.chr Py.dquote ++ "rate limited" ++ Py.chr Py.dquote ++ "}".

Definition rate_limited : Response :=
  mkResponse 429 rate_limited_body (Some (PDict [("message", PStr "rate limited")])).

(** An answer [200] with the body [{}]. *)
Definition empty_ok : Response := mkResponse 200 "{}" (Some (PDict [])).

(** An answer [200] whose body is not JSON. *)
Definition html_ok : Response := mkResponse 200 "<html>busy</html>" None.

Definition api_key_variable : string := "SEMANTIC_SCHOLAR_API_KEY".

(** A configuration file that holds [key] where the program looks for it. *)
Definition config_with_key (key : PyVal) : ConfigFile :=
  CfgLoaded (PDict [("semantic_scholar", PDict [("api_key", key)])]).

Definition is_dict (v : PyVal) : bool :=
  match v with
  | PDict _ => true
  | _ => false
  end.

(** A world with a key in the environment and another in the file. *)
Definition keyed_world : World :=
  mkWorld [(api_key_variable, " env-key ")]
    (config_with_key (PStr "file-key")) (fun _ => inr empty_ok) [].

(** A snippet search with paging arguments out of range. *)
Definition snippet_call : ToolCall :=
  SnippetSearch (PStr "attention") Defaults.snippet_search 500 (-5) PNone.

(** ** Vocabulary of the further properties *)

(** [all(p(c) for c in s)] *)
Fixpoint all_chars (p : ascii -> bool) (s : string) : bool :=
  match s with
  | EmptyString => true
  | String c r => p c && all_chars p r
  end.

(** A string that does not start with white space, and one that does not
    end with it. *)
Definition clean_start (s : string) : bool :=
  match s with
  | EmptyString => true
  | String c _ => negb (PyStr.isspace c)
  end.

Fixpoint clean_end (s : string) : bool :=
  match s with
  | EmptyString => true
  | String c EmptyString => negb (PyStr.isspace c)
  | String _ r => clean_end r
  end.



(** A printable ASCII character other than the two quotes and the
    backslash: [repr] shows it as it is. *)
Definition plain_char (c : ascii) : bool :=
  let n := N_of_ascii c in
  ((32 <=? n) && (n <? 127) && negb (n =? 39) && negb (n =? 34)
   && negb (n =? 92))%N.

(** The world with another log. *)
Definition with_log (w : World) (l : list HttpRequest) : World :=
  mkWorld (environ w) (config_yaml w) (upstream w) l.

(** * Properties *)

(** ** Strings *)

Section StringFacts.

Lemma append_nil_r (s : string) : s ++ EmptyString = s.
Proof. induction s as [|c s IH]; simpl; [reflexivity | now rewrite IH]. Qed.

Lemma append_assoc (a b c : string) : (a ++ b) ++ c = a ++ b ++ c.
Proof. induction a as [|x a IH]; simpl; [reflexivity | now rewrite IH]. Qed.

Lemma contains_refl (s : string) : PyStr.contains s s.
Proof. exists EmptyString, EmptyString. simpl. now rewrite append_nil_r. Qed.

Lemma contains_app_l (a b n : string) :
  PyStr.contains b n -> PyStr.contains (a ++ b) n.
Proof.
  intros (pre & post & ->). exists (a ++ pre), post.
  now rewrite append_assoc.
Qed.

Lemma contains_app_r (a b n : string) :
  PyStr.contains a n -> PyStr.contains (a ++ b) n.
Proof.
  intros (pre & post & ->). exists pre, (post ++ b).
  now rewrite !append_assoc.
Qed.

Lemma contains_here (a n b : string) : PyStr.contains (a ++ n ++ b) n.
Proof. now exists a, b. Qed.

Lemma prefix_split (p s : string) :
  String.prefix p s = true -> exists post, s = p ++ post.
Proof.
  revert s. induction p as [|c p IH]; intros s H.
  - now exists s.
  - destruct s as [|d s]; simpl in H; [discriminate|].
    destruct (Ascii.ascii_dec c d) as [->|]; [|discriminate].
    destruct (IH _ H) as [post ->]. now exists post.
Qed.

(** The test [containsb] is sound for [contains]. *)
Lemma containsb_sound (hay n : string) :
  PyStr.containsb hay n = true -> PyStr.contains hay n.
Proof.
  induction hay as [|c hay IH]; cbn [PyStr.containsb]; intros H.
  - rewrite orb_false_r in H. destruct (prefix_split _ _ H) as [post ->].
    now exists EmptyString, post.
  - apply orb_true_iff in H as [H|H].
    + destruct (prefix_split _ _ H) as [post E].
      exists EmptyString, post. now rewrite E.
    + destruct (IH H) as (pre & post & ->).
      now exists (String c pre), post.
Qed.

End StringFacts.

(** ** Dictionaries *)

Section DictFacts.

Lemma get_set_same (d : Dict) (k : string) (v : PyVal) :
  Py.get (Py.set d k v) k = Some v.
Proof.
  induction d as [|[k' v'] d IH]; simpl.
  - now rewrite String.eqb_refl.
  - destruct (String.eqb k' k) eqn:E; simpl; rewrite E; [reflexivity | exact IH].
Qed.

Lemma get_set_other (d : Dict) (k k' : string) (v : PyVal) :
  String.eqb k k' = false -> Py.get (Py.set d k v) k' = Py.get d k'.
Proof.
  intros N. induction d as [|[k0 v0] d IH]; simpl.
  - now rewrite N.
  - destruct (String.eqb k0 k) eqn:E; simpl.
    + apply String.eqb_eq in E. subst k0. now rewrite N.
    + destruct (String.eqb k0 k'); [reflexivity | exact IH].
Qed.

Lemma get_set_if_other (c : bool) (d : Dict) (k k' : string) (v : PyVal) :
  String.eqb k k' = false -> Py.get (Py.set_if c d k v) k' = Py.get d k'.
Proof. destruct c; simpl; [apply get_set_other | reflexivity]. Qed.

Lemma get_set_norm_other (d : Dict) (k k' : string) (o : option string) :
  String.eqb k k' = false -> Py.get (set_norm d k o) k' = Py.get d k'.
Proof. apply get_set_if_other. Qed.

(** A normalized selector is stored when, and only when, it is a
    non-empty string. *)
Lemma get_set_norm_same (d : Dict) (k : string) (o : option string) :
  Py.get d k = None ->
  Py.get (set_norm d k o) k
  = match o with
    | Some s => if Py.nonempty s then Some (PStr s) else None
    | None => None
    end.
Proof.
  intros H. unfold set_norm, Py.set_if.
  destruct o as [s|]; simpl; [|exact H].
  destruct (Py.nonempty s); [apply get_set_same | exact H].
Qed.

End DictFacts.

(** ** The monad and the gateway *)

Section Gateway.

Lemma calls_of_run {A} (m : M A) (w w' : World) (r : PyExc + A)
    (l : list HttpRequest) :
  m w = (r, w') -> sent w' = (sent w ++ l)%list -> calls m w = l.
Proof.
  intros E S. unfold calls. rewrite E. simpl. rewrite S.
  rewrite skipn_app, skipn_all, Nat.sub_diag. reflexivity.
Qed.

Lemma calls_none {A} (m : M A) (w : World) (r : PyExc + A) :
  m w = (r, w) -> calls m w = [].
Proof.
  intros E. apply (calls_of_run m w w r []); [exact E|].
  now rewrite app_nil_r.
Qed.

(** One run of the gateway: one call is sent, and its answer decides the
    outcome. *)
Lemma request_json_run (method path : string) (params body : option Dict)
    (w : World) :
  let rq := gateway_call w method path params body in
  _request_json method path params body w
  = (gateway_result (request_url path) (upstream w rq), log w rq).
Proof.
  unfold _request_json, bind, gets, requests_request, gateway_call,
    gateway_result, log, raise, ret; simpl.
  destruct (upstream w _) as [failure|resp]; [reflexivity|].
  destruct (is_2xx (status_code resp)); simpl; [|reflexivity].
  destruct (json resp); reflexivity.
Qed.

(** The tail every tool ends with. *)
Lemma request_and_dump_run (method path : string) (params body : option Dict)
    (w : World) :
  let rq := gateway_call w method path params body in
  (data <- _request_json method path params body ;; ret (Json.dumps data)) w
  = (dumped (gateway_result (request_url path) (upstream w rq)), log w rq).
Proof.
  unfold bind at 1. rewrite request_json_run. simpl.
  destruct (gateway_result _ _); reflexivity.
Qed.

End Gateway.

(** ** The contract of the gateway *)

Section GatewayContract.

Variables (method path : string) (params body : option Dict).

(** C3. A response whose status is not in [200,300) makes the gateway
    raise a [RuntimeError]; the message holds the status code, the URL of
    the call and the payload of the error, which is the parsed body or,
    when the body does not parse, the mapping with the raw text under
    [message]. One call has been sent. *)
Theorem non_2xx_raises_status_url_payload (w : World) (resp : Response) :
  upstream w (gateway_call w method path params body) = inr resp ->
  is_2xx (status_code resp) = false ->
  exists msg,
    outcome (_request_json method path params body) w = inl (RuntimeError msg)
    /\ msg = error_message (status_code resp) (request_url path) (error_payload resp)
    /\ PyStr.contains msg (PyStr.of_Z (status_code resp))
    /\ PyStr.contains msg (request_url path)
    /\ PyStr.contains msg (Py.str (error_payload resp))
    /\ (forall payload, json resp = Some payload -> error_payload resp = payload)
    /\ (json resp = None ->
        error_payload resp = PDict [("message", PStr (text resp))])
    /\ calls (_request_json method path params body) w
       = [gateway_call w method path params body].
Proof.
  intros Hup Hst.
  pose proof (request_json_run method path params body w) as R.
  cbv zeta in R. rewrite Hup in R. unfold gateway_result in R.
  rewrite Hst in R.
  eexists. split; [unfold outcome; rewrite R; reflexivity|].
  split; [reflexivity|]. unfold error_message.
  repeat split.
  - apply contains_app_l, contains_app_r, contains_refl.
  - do 3 apply contains_app_l. apply contains_app_r, contains_refl.
  - do 5 apply contains_app_l. apply contains_refl.
  - intros payload E. unfold error_payload. now rewrite E.
  - intros E. unfold error_payload. now rewrite E.
  - eapply calls_of_run; [exact R | reflexivity].
Qed.

(** C6. A response whose status is in [200,300) makes the gateway return
    the parsed body, or, when the body does not parse, the mapping with
    the raw text under [raw]; nothing is raised. *)
Theorem success_returns_json_or_raw (w : World) (resp : Response) :
  upstream w (gateway_call w method path params body) = inr resp ->
  is_2xx (status_code resp) = true ->
  (forall data, json resp = Some data ->
     outcome (_request_json method path params body) w = inr data)
  /\ (json resp = None ->
      outcome (_request_json method path params body) w
      = inr (PDict [("raw", PStr (text resp))]))
  /\ exists data, outcome (_request_json method path params body) w = inr data.
Proof.
  intros Hup Hst.
  pose proof (request_json_run method path params body w) as R.
  cbv zeta in R. rewrite Hup in R. unfold gateway_result in R.
  rewrite Hst in R. unfold outcome. rewrite R. simpl.
  repeat split.
  - intros data E. now rewrite E.
  - intros E. now rewrite E.
  - destruct (json resp); eexists; reflexivity.
Qed.

End GatewayContract.

(** The specification's scenario for C3: the upstream answers 429 with the
    body [{"message":"rate limited"}]. *)
Lemma non_2xx_raises_status_url_payload_witness :
  is_2xx (status_code rate_limited) = false
  /\ exists msg,
       outcome (_request_json "GET" "/paper/search"
                  (Some [("query", PStr "quantum")]) None)
         (stub_world rate_limited)
       = inl (RuntimeError msg)
       /\ PyStr.containsb msg "429" = true
       /\ PyStr.containsb msg "rate limited" = true
       /\ PyStr.containsb msg
            "https://api.semanticscholar.org/graph/v1/paper/search" = true.
Proof.
  split; [reflexivity|].
  destruct (non_2xx_raises_status_url_payload "GET" "/paper/search"
              (Some [("query", PStr "quantum")]) None
              (stub_world rate_limited) rate_limited eq_refl eq_refl)
    as (msg & Hout & Hmsg & _).
  exists msg. split; [exact Hout|]. rewrite Hmsg.
  repeat split; vm_compute; reflexivity.
Defined.

Lemma success_returns_json_or_raw_witness :
  is_2xx (status_code html_ok) = true
  /\ outcome (_request_json "GET" "/paper/p1" (Some []) None)
       (stub_world html_ok)
     = inr (PDict [("raw", PStr "<html>busy</html>")]).
Proof.
  split; [reflexivity|].
  destruct (success_returns_json_or_raw "GET" "/paper/p1" (Some []) None
              (stub_world html_ok) html_ok eq_refl eq_refl) as (_ & Hraw & _).
  exact (Hraw eq_refl).
Defined.

(** ** The credential *)

Section Credential.

Lemma load_api_key_reads_env_and_file (w : World) (env : list (string * string))
    (cfg : ConfigFile) :
  _load_api_key (reconfigure env cfg w)
  = match getenv env api_key_variable with
    | Some k => if Py.nonempty k then Some (PyStr.strip k) else load_config_key cfg
    | None => load_config_key cfg
    end.
Proof. reflexivity. Qed.

Lemma load_config_key_not_dict (data : PyVal) :
  is_dict data = false -> load_config_key (CfgLoaded data) = None.
Proof.
  destruct data as [| b | z | s | l | l | d]; simpl; try discriminate;
    intros _; try reflexivity;
    [destruct b | destruct (z =? 0) | destruct s | destruct l | destruct l];
    reflexivity.
Qed.

(** C8. The key is resolved from the world as it is when the call is
    made: each call sent carries the headers of the key resolved then,
    also after another call was made under another environment.  A
    non-empty environment variable wins over the configuration file; with
    no variable the file's key is used; with neither, or with a file that
    cannot be read or parsed or is not a mapping, no key is resolved and
    the call carries no [x-api-key] header. *)
Theorem credential_resolved_on_every_call :
  (forall method path params body w,
      calls (_request_json method path params body) w
      = [gateway_call w method path params body]
      /\ rq_headers (gateway_call w method path params body)
         = request_headers (_load_api_key w))
  /\ (forall m1 p1 a1 b1 m2 p2 a2 b2 env cfg w,
         let w1 := snd (_request_json m1 p1 a1 b1 w) in
         let w2 := snd (_request_json m2 p2 a2 b2 (reconfigure env cfg w1)) in
         exists rq1 rq2,
           sent w2 = (sent w ++ [rq1; rq2])%list
           /\ rq_headers rq1 = request_headers (_load_api_key w)
           /\ rq_headers rq2
              = request_headers (_load_api_key (reconfigure env cfg w)))
  /\ (forall w k,
         getenv (environ w) api_key_variable = Some k ->
         k <> EmptyString ->
         _load_api_key w = Some (PyStr.strip k))
  /\ (forall w k,
         (getenv (environ w) api_key_variable = None
          \/ getenv (environ w) api_key_variable = Some EmptyString) ->
         (config_yaml w = config_with_key (PStr k) -> k <> EmptyString ->
          _load_api_key w = Some (PyStr.strip k))
         /\ (config_yaml w = CfgAbsent -> _load_api_key w = None)
         /\ (config_yaml w = CfgBroken -> _load_api_key w = None)
         /\ (forall data, config_yaml w = CfgLoaded data ->
               is_dict data = false -> _load_api_key w = None))
  /\ request_headers None = [("Accept", "application/json")]
  /\ (forall k, k <> EmptyString ->
        request_headers (Some k)
        = [("Accept", "application/json"); ("x-api-key", k)]).
Proof.
  split; [|split; [|split; [|split; [|split]]]].
  - intros. split; [|reflexivity].
    eapply calls_of_run; [apply request_json_run | reflexivity].
  - intros. subst w1 w2. rewrite !request_json_run. simpl.
    do 2 eexists. split; [rewrite <- app_assoc; reflexivity|].
    split; reflexivity.
  - intros w k E N. unfold _load_api_key. fold api_key_variable. rewrite E.
    destruct k; [contradiction|reflexivity].
  - intros w k E.
    assert (H : _load_api_key w = load_config_key (config_yaml w)).
    { unfold _load_api_key. fold api_key_variable.
      destruct E as [-> | ->]; reflexivity. }
    rewrite H. repeat split.
    + intros -> N. destruct k; [contradiction|reflexivity].
    + now intros ->.
    + now intros ->.
    + intros data -> D. now apply load_config_key_not_dict.
  - reflexivity.
  - intros k N. destruct k; [contradiction|reflexivity].
Qed.

Lemma credential_resolved_on_every_call_witness :
  getenv (environ keyed_world) api_key_variable = Some " env-key "
  /\ _load_api_key keyed_world = Some "env-key"
  /\ _load_api_key
       (reconfigure [] (config_with_key (PStr "file-key")) keyed_world)
     = Some "file-key"
  /\ _load_api_key (reconfigure [] CfgBroken keyed_world) = None.
Proof.
  pose (w := keyed_world).
  destruct credential_resolved_on_every_call as (_ & _ & Henv & Hfile & _).
  split; [reflexivity|]. split.
  - apply (Henv w " env-key "); [reflexivity | discriminate].
  - split.
    + apply (Hfile (reconfigure [] (config_with_key (PStr "file-key")) w)
               "file-key"); [left; reflexivity | reflexivity | discriminate].
    + apply (Hfile (reconfigure [] CfgBroken w) EmptyString);
        [left; reflexivity | reflexivity].
Defined.

End Credential.

(** ** The guards of the tools *)

Section Guards.

Lemma bind_ret {A B} (a : A) (k : A -> M B) : bind (ret a) k = k a.
Proof. reflexivity. Qed.

Lemma bind_raise {A B} (e : PyExc) (k : A -> M B) : bind (raise e) k = raise e.
Proof. reflexivity. Qed.

Lemma require_str_pass (v : PyVal) (e : PyExc) :
  not_a_nonblank_str v = false ->
  exists s, v = PStr s /\ require_str v e = ret s.
Proof.
  destruct v; simpl; try discriminate. intros H. exists s.
  now rewrite H.
Qed.

Lemma require_str_fail (v : PyVal) (e : PyExc) :
  not_a_nonblank_str v = true -> require_str v e = raise e.
Proof. destruct v; simpl; try reflexivity. now intros ->. Qed.

Lemma clean_items_pass (e : PyExc) (l : list PyVal) :
  forallb (fun x => negb (not_a_nonblank_str x)) l = true ->
  clean_items e l = ret (stripped l).
Proof.
  induction l as [|x l IH]; simpl; [reflexivity|].
  intros H. apply andb_true_iff in H as [Hx Hl].
  apply negb_true_iff in Hx.
  destruct (require_str_pass x e Hx) as (s & -> & ->).
  rewrite bind_ret, (IH Hl). reflexivity.
Qed.

Lemma clean_items_fail (e : PyExc) (l : list PyVal) :
  forallb (fun x => negb (not_a_nonblank_str x)) l = false ->
  clean_items e l = raise e.
Proof.
  induction l as [|x l IH]; simpl; [discriminate|].
  destruct (not_a_nonblank_str x) eqn:Hx; simpl.
  - intros _. now rewrite (require_str_fail x e Hx).
  - intros Hl. destruct (require_str_pass x e Hx) as (s & -> & ->).
    rewrite bind_ret, (IH Hl). reflexivity.
Qed.

Lemma require_str_list_pass (v : PyVal) (bound : Z) (e1 e2 e3 : PyExc) :
  good_str_list bound v = true ->
  exists l, as_list_or_tuple v = Some l
            /\ require_str_list v bound e1 e2 e3 = ret (stripped l).
Proof.
  unfold good_str_list, require_str_list.
  destruct (as_list_or_tuple v) as [l|]; [|discriminate].
  intros H. apply andb_true_iff in H as [H Hitems].
  apply andb_true_iff in H as [Hne Hlen].
  exists l. split; [reflexivity|].
  apply negb_true_iff in Hne. rewrite Hne.
  apply Z.leb_le in Hlen.
  replace (bound <? Z.of_nat (List.length l)) with false
    by (symmetry; apply Z.ltb_ge; exact Hlen).
  simpl. rewrite !bind_ret. now apply clean_items_pass.
Qed.

Lemma require_str_list_fail (v : PyVal) (bound : Z) (e1 e2 e3 : PyExc) :
  good_str_list bound v = false ->
  exists e, In e [e1; e2; e3] /\ require_str_list v bound e1 e2 e3 = raise e.
Proof.
  unfold good_str_list, require_str_list.
  destruct (as_list_or_tuple v) as [l|];
    [|intros _; exists e1; split; [now left | reflexivity]].
  destruct (Nat.eqb (List.length l) 0);
    [intros _; exists e1; split; [now left | reflexivity]|].
  destruct (bound <? Z.of_nat (List.length l)) eqn:Hlt.
  - intros _. exists e2. split; [right; now left | reflexivity].
  - apply Z.ltb_ge in Hlt. apply Z.leb_le in Hlt. rewrite Hlt. simpl.
    intros H. exists e3. split; [right; right; now left|].
    rewrite !bind_ret. now apply clean_items_fail.
Qed.

Lemma bad_list_spec (bound : Z) (v : PyVal) :
  bad_list bound v <-> good_str_list bound v = false.
Proof.
  unfold good_str_list. split.
  - intros [H | H | l H Hlen | l x H Hin Hx]; rewrite H; try reflexivity.
    + apply andb_false_iff. left. apply andb_false_iff. right.
      apply Z.leb_gt. exact Hlen.
    + apply andb_false_iff. right.
      apply not_true_is_false. intros F.
      rewrite forallb_forall in F. specialize (F x Hin).
      now rewrite Hx in F.
  - destruct (as_list_or_tuple v) as [l|] eqn:E; [|intros _; now apply NotAList].
    intros H. apply andb_false_iff in H as [H|H].
    + apply andb_false_iff in H as [H|H].
      * apply negb_false_iff, Nat.eqb_eq in H.
        destruct l; [now apply EmptyList | discriminate].
      * apply Z.leb_gt in H. now apply (TooLong bound v l).
    + assert (X : exists x, In x l /\ not_a_nonblank_str x = true).
      { clear E. induction l as [|x l IH]; simpl in H; [discriminate|].
        apply andb_false_iff in H as [H|H].
        - exists x. split; [now left | now apply negb_false_iff in H].
        - destruct (IH H) as (y & Hy & Hb). exists y. split; [now right | exact Hb]. }
      destruct X as (x & Hin & Hx). now apply (BadItem bound v l x).
Qed.

(** A tool that starts with the guard on a required string and is given
    an argument that fails it: the error is raised, nothing is sent. *)
Lemma guarded_str_fail {B} (v : PyVal) (e : PyExc) (k : string -> M B)
    (w : World) :
  not_a_nonblank_str v = true ->
  outcome (bind (require_str v e) k) w = inl e
  /\ calls (bind (require_str v e) k) w = [].
Proof.
  intros H. rewrite (require_str_fail v e H), bind_raise.
  split; [reflexivity | now apply (calls_none _ w (inl e))].
Qed.

Lemma blank_or_none_fails_guard (v : PyVal) :
  blank_or_none v = true -> not_a_nonblank_str v = true.
Proof.
  destruct v; simpl; try discriminate; [reflexivity|].
  unfold Py.nonempty. intros ->. reflexivity.
Qed.

End Guards.

(** ** Required strings *)

Lemma carried_params (w : World) (method path : string) (d : Dict)
    (body : option Dict) :
  carried (gateway_call w method path (Some d) body) = d.
Proof. reflexivity. Qed.

Lemma carried_body (w : World) (method path : string) (d : Dict) :
  carried (gateway_call w method path None (Some d)) = d.
Proof. reflexivity. Qed.

Ltac dict_lookup :=
  rewrite ?carried_params, ?carried_body;
  repeat first
    [ rewrite get_set_norm_other by reflexivity
    | rewrite get_set_if_other by reflexivity
    | rewrite get_set_other by reflexivity ];
  try reflexivity.

Ltac one_call :=
  eapply calls_of_run; [apply request_and_dump_run | reflexivity].

Section RequiredStrings.

(** Every tool but [search_papers] guards its required string: an
    argument that is not a string, or is blank, raises a [ValueError]
    that names the parameter, and no call is sent. *)
Lemma required_string_guard (c : ToolCall) (name : string) (v : PyVal)
    (w : World) :
  required_string c = Some (name, v) ->
  is_search_papers c = false ->
  not_a_nonblank_str v = true ->
  exists msg,
    outcome (call_tool c) w = inl (ValueError msg)
    /\ PyStr.contains msg name
    /\ calls (call_tool c) w = [].
Proof.
  intros Hreq Hsp Hbad.
  destruct c; simpl in Hreq, Hsp; try discriminate;
    injection Hreq as <- <-; simpl call_tool;
    unfold get_paper, search_papers_match, paper_autocomplete,
      get_paper_authors, get_paper_citations, get_paper_references,
      paper_listing, get_author, search_authors, get_author_papers,
      snippet_search;
    (eexists; split; [apply guarded_str_fail; exact Hbad|];
     split; [apply containsb_sound; vm_compute; reflexivity
            | apply guarded_str_fail; exact Hbad]).
Qed.

(** C1, at the tool where it fails. [search_papers] has no guard on
    [query]: whatever the argument, the empty string, white space and
    [None] included, one call goes to [/paper/search] with the argument
    as its [query], and the outcome is never a [ValueError]. *)
Theorem search_papers_has_no_query_guard
    (query fields : PyVal) (limit offset : Z)
    (year open_access_pdf fields_of_study : PyVal) (w : World) :
  let run := search_papers query fields limit offset year open_access_pdf
               fields_of_study in
  is_value_error (outcome run w) = false
  /\ map rq_url (calls run w)
     = ["https://api.semanticscholar.org/graph/v1/paper/search"]
  /\ map (fun rq => Py.get (carried rq) "query") (calls run w) = [Some query].
Proof.
  intros run. subst run. unfold search_papers.
  split; [|split].
  - unfold outcome. rewrite request_and_dump_run. simpl.
    destruct (upstream w _) as [failure|resp]; simpl; [reflexivity|].
    destruct (is_2xx _); simpl; [|reflexivity].
    destruct (json resp); reflexivity.
  - erewrite calls_of_run by (apply request_and_dump_run || reflexivity).
    reflexivity.
  - erewrite calls_of_run by (apply request_and_dump_run || reflexivity).
    simpl. f_equal. destruct open_access_pdf; dict_lookup.
Qed.

(** C9, at the tool where it fails, next to a sibling. [search_papers]
    sends its query as given, surrounding white space included;
    [search_authors] sends the same argument stripped. *)
Theorem search_papers_sends_query_unstripped :
  map (fun rq => Py.get (carried rq) "query")
    (calls (search_papers (PStr " quantum ") Defaults.search_papers 25 0
              PNone PNone PNone) (stub_world empty_ok))
  = [Some (PStr " quantum ")]
  /\ map (fun rq => Py.get (carried rq) "query")
       (calls (search_authors (PStr " quantum ") Defaults.search_authors 25 0)
          (stub_world empty_ok))
     = [Some (PStr "quantum")].
Proof. split; vm_compute; reflexivity. Qed.

(** C10. [search_papers] stores an [open_access_pdf] that is [True] or
    [False] under [openAccessPdf] as the string [true] or [false]; the
    key is missing exactly when the argument is [None]. *)
Theorem open_access_pdf_sent_as_lowercase_string
    (query fields : PyVal) (limit offset : Z)
    (year fields_of_study : PyVal) (w : World) :
  (forall b : bool,
      map (fun rq => Py.get (carried rq) "openAccessPdf")
        (calls (search_papers query fields limit offset year (PBool b)
                  fields_of_study) w)
      = [Some (PStr (if b then "true" else "false"))])
  /\ (forall open_access_pdf : PyVal,
         map (fun rq => Py.has_key (carried rq) "openAccessPdf")
           (calls (search_papers query fields limit offset year
                     open_access_pdf fields_of_study) w)
         = [match open_access_pdf with PNone => false | _ => true end]).
Proof.
  split.
  - intros b. unfold search_papers.
    erewrite calls_of_run by (apply request_and_dump_run || reflexivity).
    simpl. f_equal. rewrite carried_params.
    rewrite get_set_norm_other by reflexivity.
    rewrite get_set_same. now destruct b.
  - intros oa. unfold search_papers.
    erewrite calls_of_run by (apply request_and_dump_run || reflexivity).
    simpl. f_equal. unfold Py.has_key. rewrite carried_params.
    rewrite get_set_norm_other by reflexivity.
    destruct oa; try (rewrite get_set_same; reflexivity).
    dict_lookup.
Qed.

End RequiredStrings.

(** ** Tools whose guards pass *)

Lemma guarded_str_pass {B} (v : PyVal) (e : PyExc) (k : string -> M B) :
  not_a_nonblank_str v = false ->
  exists s, v = PStr s /\ bind (require_str v e) k = k s.
Proof.
  intros H. destruct (require_str_pass v e H) as (s & Hs & Hr).
  exists s. split; [exact Hs|]. now rewrite Hr.
Qed.

Lemma guarded_list_pass {B} (v : PyVal) (bound : Z) (e1 e2 e3 : PyExc)
    (k : list string -> M B) :
  good_str_list bound v = true ->
  exists l, as_list_or_tuple v = Some l
            /\ bind (require_str_list v bound e1 e2 e3) k = k (stripped l).
Proof.
  intros H. destruct (require_str_list_pass v bound e1 e2 e3 H) as (l & Hl & Hr).
  exists l. split; [exact Hl|]. now rewrite Hr.
Qed.

Lemma guarded_list_fail {B} (v : PyVal) (bound : Z) (e1 e2 e3 : PyExc)
    (k : list string -> M B) (w : World) :
  good_str_list bound v = false ->
  exists e, In e [e1; e2; e3]
            /\ outcome (bind (require_str_list v bound e1 e2 e3) k) w = inl e
            /\ calls (bind (require_str_list v bound e1 e2 e3) k) w = [].
Proof.
  intros H. destruct (require_str_list_fail v bound e1 e2 e3 H) as (e & Hin & Hr).
  exists e. split; [exact Hin|]. rewrite Hr, bind_raise.
  split; [reflexivity | now apply (calls_none _ w (inl e))].
Qed.

Ltac pass_guards :=
  repeat match goal with
    | H : not_a_nonblank_str ?v = false
      |- context [bind (require_str ?v ?e) ?k] =>
        let s := fresh "s" in
        let Hs := fresh "Hs" in
        destruct (guarded_str_pass v e k H) as (s & Hs & ->)
    | H : good_str_list ?b ?v = true
      |- context [bind (require_str_list ?v ?b ?e1 ?e2 ?e3) ?k] =>
        let l := fresh "l" in
        let Hl := fresh "Hl" in
        destruct (guarded_list_pass v b e1 e2 e3 k H) as (l & Hl & ->)
    end;
  cbv beta zeta.

Ltac sent_one :=
  erewrite calls_of_run by (apply request_and_dump_run || reflexivity);
  cbn [map].

Section Paging.

Lemma clamp_limit_range (limit bound : Z) :
  1 <= bound -> 1 <= clamp_limit limit bound <= bound.
Proof. unfold clamp_limit. lia. Qed.

Lemma clamp_limit_inside (limit bound : Z) :
  1 <= limit <= bound -> clamp_limit limit bound = limit.
Proof. unfold clamp_limit. lia. Qed.

Lemma clamp_offset_range (offset : Z) : 0 <= clamp_offset offset.
Proof. unfold clamp_offset. lia. Qed.

(** C5. A call whose guards pass sends one request; when its tool bounds
    the limit by 100 the request carries [limit] clamped into 1..100, and
    when its tool takes an offset the request carries [offset] raised to 0
    when negative: limit 0 goes out as 1, limit 500 as 100, offset -5 as 0,
    and values already in range go out unchanged. *)
Theorem paging_is_clamped (c : ToolCall) (w : World) :
  preflight_ok c = true ->
  (forall limit : Z,
      limit_argument c = Some limit ->
      map (fun rq => Py.get (carried rq) "limit") (calls (call_tool c) w)
      = [Some (PInt (clamp_limit limit 100))]
      /\ 1 <= clamp_limit limit 100 <= 100
      /\ (1 <= limit <= 100 -> clamp_limit limit 100 = limit))
  /\ (forall offset : Z,
         offset_argument c = Some offset ->
         map (fun rq => Py.get (carried rq) "offset") (calls (call_tool c) w)
         = [Some (PInt (clamp_offset offset))]
         /\ 0 <= clamp_offset offset
         /\ (0 <= offset -> clamp_offset offset = offset))
  /\ clamp_limit 0 100 = 1
  /\ clamp_limit 500 100 = 100
  /\ clamp_offset (-5) = 0.
Proof.
  intros Hpre.
  split; [|split; [|repeat split]].
  - intros limit Hlimit.
    split; [|split; [apply clamp_limit_range; lia | apply clamp_limit_inside]].
    destruct c; simpl in Hlimit; try discriminate;
      injection Hlimit as <-;
      unfold preflight_ok in Hpre; simpl in Hpre;
      rewrite ?andb_true_r in Hpre;
      try apply negb_true_iff in Hpre;
      simpl call_tool;
      unfold search_papers, search_papers_bulk, paper_autocomplete,
        get_paper_authors, get_paper_citations, get_paper_references,
        paper_listing, search_authors, get_author_papers, snippet_search,
        paging;
      pass_guards; sent_one; f_equal;
      try (destruct open_access_pdf); dict_lookup.
  - intros offset Hoffset.
    split; [|split; [apply clamp_offset_range | unfold clamp_offset; lia]].
    destruct c; simpl in Hoffset; try discriminate;
      injection Hoffset as <-;
      unfold preflight_ok in Hpre; simpl in Hpre;
      rewrite ?andb_true_r in Hpre;
      try apply negb_true_iff in Hpre;
      simpl call_tool;
      unfold search_papers, search_papers_bulk, get_paper_authors,
        get_paper_citations, get_paper_references, paper_listing,
        search_authors, get_author_papers, snippet_search, paging;
      pass_guards; sent_one; f_equal;
      try (destruct open_access_pdf); dict_lookup.
Qed.

Lemma paging_is_clamped_witness :
  preflight_ok snippet_call = true
  /\ limit_argument snippet_call = Some 500
  /\ offset_argument snippet_call = Some (-5)
  /\ map (fun rq => Py.get (carried rq) "limit")
       (calls (call_tool snippet_call) (stub_world empty_ok))
     = [Some (PInt 100)]
  /\ map (fun rq => Py.get (carried rq) "offset")
       (calls (call_tool snippet_call) (stub_world empty_ok))
     = [Some (PInt 0)].
Proof.
  destruct (paging_is_clamped snippet_call (stub_world empty_ok) eq_refl)
    as (Hl & Ho & _).
  split; [reflexivity|]. split; [reflexivity|]. split; [reflexivity|].
  split; [exact (proj1 (Hl 500 eq_refl)) | exact (proj1 (Ho (-5) eq_refl))].
Defined.

End Paging.

(** ** Match search *)

Section MatchSearch.

Variables (title authors year venue fields : PyVal) (limit : Z) (w : World).


End MatchSearch.


(** ** List-bearing tools *)

Section ListTools.

(** The guards of the three tools that take a list. *)
Lemma list_guard (c : ToolCall) (name : string) (v : PyVal) (bound : Z)
    (w : World) :
  list_parameter c = Some (name, v, bound) ->
  bad_list bound v ->
  exists msg,
    outcome (call_tool c) w = inl (ValueError msg)
    /\ PyStr.contains msg name
    /\ calls (call_tool c) w = [].
Proof.
  intros Hc Hbad. apply bad_list_spec in Hbad.
  destruct c; simpl in Hc; try discriminate;
    injection Hc as <- <- <-; simpl call_tool;
    unfold get_papers_batch, get_authors_batch, search_papers_bulk;
    match goal with
    | |- context [bind (require_str_list ?v ?b ?e1 ?e2 ?e3) ?k] =>
        destruct (guarded_list_fail v b e1 e2 e3 k w Hbad)
          as (e & Hin & Hout & Hcalls)
    end;
    rewrite Hout, Hcalls;
    destruct Hin as [<- | [<- | [<- | []]]];
    (eexists; split; [reflexivity|];
     split; [apply containsb_sound; vm_compute; reflexivity | reflexivity]).
Qed.

(** C4, as the code has it. A list-bearing tool refuses an argument that
    is not a list or tuple, is empty, is longer than its bound (1000 ids,
    100 queries) or has an item that is not a non-blank string, with a
    [ValueError] that names the parameter and before any call.  A batch
    of two valid ids sends one POST to [/paper/batch]; its body holds the
    stripped ids under [ids], followed by the normalized selector under
    [fields] when that is a non-empty string, as it is by default. *)
Theorem list_guards_and_batch_body :
  (forall c name v bound w,
      list_parameter c = Some (name, v, bound) ->
      bad_list bound v ->
      exists msg,
        outcome (call_tool c) w = inl (ValueError msg)
        /\ PyStr.contains msg name
        /\ calls (call_tool c) w = [])
  /\ (forall id1 id2 fields w,
         not_a_nonblank_str (PStr id1) = false ->
         not_a_nonblank_str (PStr id2) = false ->
         let run := get_papers_batch (PList [PStr id1; PStr id2]) fields in
         let ids := ("ids", PList [PStr (PyStr.strip id1); PStr (PyStr.strip id2)]) in
         map rq_method (calls run w) = ["POST"]
         /\ map rq_url (calls run w)
            = ["https://api.semanticscholar.org/graph/v1/paper/batch"]
         /\ map rq_params (calls run w) = [None]
         /\ map rq_json (calls run w)
            = [Some (match _normalize_fields fields with
                     | Some s => if Py.nonempty s then [ids; ("fields", PStr s)]
                                 else [ids]
                     | None => [ids]
                     end)])
  /\ _normalize_fields Defaults.get_papers_batch
     = Some "title,authors,year,venue,externalIds,url".
Proof.
  split; [exact list_guard|]. split; [|reflexivity].
  intros id1 id2 fields w H1 H2 run ids. subst run.
  assert (Hgood : good_str_list 1000 (PList [PStr id1; PStr id2]) = true).
  { unfold good_str_list. cbn [as_list_or_tuple List.length forallb].
    rewrite H1, H2. reflexivity. }
  unfold get_papers_batch. pass_guards.
  injection Hl as <-. cbn [stripped].
  repeat split; sent_one; try reflexivity.
  unfold gateway_call; cbn [rq_json]. do 2 f_equal.
  unfold set_norm, Py.set_if.
  destruct (_normalize_fields fields) as [s|]; [|reflexivity].
  simpl. destruct (Py.nonempty s); reflexivity.
Qed.

Lemma list_guards_and_batch_body_witness :
  (exists msg,
      outcome (get_papers_batch (PList (repeat (PStr "id") 1001))
                 Defaults.get_papers_batch) (stub_world empty_ok)
      = inl (ValueError msg))
  /\ (exists msg,
         outcome (get_papers_batch (PList []) Defaults.get_papers_batch)
           (stub_world empty_ok)
         = inl (ValueError msg))
  /\ map rq_json
       (calls (get_papers_batch (PList [PStr "id1"; PStr " id2 "]) PNone)
          (stub_world empty_ok))
     = [Some [("ids", PList [PStr "id1"; PStr "id2"])]].
Proof.
  pose (w := stub_world empty_ok).
  destruct list_guards_and_batch_body as (Hguard & Hbatch & _).
  split; [|split].
  - destruct (Hguard (GetPapersBatch (PList (repeat (PStr "id") 1001))
                        Defaults.get_papers_batch)
                "paper_ids" _ 1000 w eq_refl) as (msg & Hm & _).
    + apply (TooLong 1000 _ (repeat (PStr "id") 1001)); [reflexivity|].
      rewrite repeat_length. lia.
    + now exists msg.
  - destruct (Hguard (GetPapersBatch (PList []) Defaults.get_papers_batch)
                "paper_ids" _ 1000 w eq_refl) as (msg & Hm & _).
    + now apply EmptyList.
    + now exists msg.
  - destruct (Hbatch "id1" " id2 " PNone w eq_refl eq_refl) as (_ & _ & _ & H).
    exact H.
Defined.

(** The scenario of the specification, with the default selector: the
    body is not the mapping that holds [ids] alone. *)
Lemma batch_body_holds_default_fields :
  map rq_json
    (calls (get_papers_batch (PList [PStr "id1"; PStr "id2"])
              Defaults.get_papers_batch) (stub_world empty_ok))
  = [Some [("ids", PList [PStr "id1"; PStr "id2"]);
           ("fields", PStr "title,authors,year,venue,externalIds,url")]]
  /\ map rq_json
       (calls (get_papers_batch (PList [PStr "id1"; PStr "id2"])
                 Defaults.get_papers_batch) (stub_world empty_ok))
     <> [Some [("ids", PList [PStr "id1"; PStr "id2"])]].
Proof.
  assert (H : map rq_json
                (calls (get_papers_batch (PList [PStr "id1"; PStr "id2"])
                          Defaults.get_papers_batch) (stub_world empty_ok))
              = [Some [("ids", PList [PStr "id1"; PStr "id2"]);
                       ("fields", PStr "title,authors,year,venue,externalIds,url")]])
    by (vm_compute; reflexivity).
  split; [exact H|]. rewrite H. discriminate.
Qed.

End ListTools.

(** ** Field selectors *)

Section FieldSelectors.



(** The entries kept are the stripped entries of the caller, in the
    caller's order: a sublist of them. *)
Lemma kept_entries_in_order (l : list string) :
  exists keep : list bool,
    List.length keep = List.length l
    /\ kept_entries l
       = map (fun se => PyStr.strip (fst se))
           (filter snd (combine l keep)).
Proof.
  unfold kept_entries. induction l as [|s l (keep & Hlen & IH)].
  - exists []. split; reflexivity.
  - exists (Py.nonempty (PyStr.strip s) :: keep). split; [simpl; now rewrite Hlen|].
    simpl. destruct (Py.nonempty (PyStr.strip s)); simpl; now rewrite IH.
Qed.






End FieldSelectors.

(** ** What the guarded tools send *)

Section Stripping.

Lemma request_url_slash (rest : string) :
  request_url (String "/" rest)
  = _BASE_URL ++ "/" ++ PyStr.lstrip_char "/" rest.
Proof. reflexivity. Qed.

(** The tools that guard a query or a title send it stripped. *)
Lemma queries_and_titles_are_stripped (c : ToolCall) (name s : string)
    (w : World) :
  required_string c = Some (name, PStr s) ->
  is_search_papers c = false ->
  name = "query" \/ name = "title" ->
  preflight_ok c = true ->
  map (fun rq => Py.get (carried rq) name) (calls (call_tool c) w)
  = [Some (PStr (PyStr.strip s))].
Proof.
  intros Hreq Hsp Hname Hpre.
  destruct c; simpl in Hreq, Hsp; try discriminate;
    injection Hreq as Hn Hv; subst name;
    (destruct Hname as [Hname | Hname]; try discriminate Hname);
    clear Hname;
    unfold preflight_ok in Hpre; simpl in Hpre;
    rewrite ?andb_true_r in Hpre;
    try (apply andb_true_iff in Hpre as [Hpre Hyear];
         apply negb_true_iff in Hyear);
    apply negb_true_iff in Hpre;
    simpl call_tool;
    unfold search_papers_match, paper_autocomplete, search_authors,
      snippet_search;
    pass_guards;
    try (rewrite Hyear; simpl raise_if; rewrite bind_ret);
    subst;
    match goal with H : PStr _ = PStr _ |- _ => injection H as -> end;
    sent_one; f_equal; try (destruct year); dict_lookup.
Qed.


(** The list-bearing tools send every item stripped, in order. *)
Lemma list_items_are_stripped (c : ToolCall) (name : string) (v : PyVal)
    (bound : Z) (w : World) :
  list_parameter c = Some (name, v, bound) ->
  good_str_list bound v = true ->
  exists l key,
    as_list_or_tuple v = Some l
    /\ (key = "ids" \/ key = "queries")
    /\ map (fun rq => Py.get (carried rq) key) (calls (call_tool c) w)
       = [Some (str_list (stripped l))].
Proof.
  intros Hc Hgood.
  destruct c; simpl in Hc; try discriminate;
    injection Hc as <- <- <-; simpl call_tool;
    unfold get_papers_batch, get_authors_batch, search_papers_bulk;
    pass_guards;
    match goal with
    | |- context [("ids", _)] => exists l, "ids"
    | |- context [("queries", _)] => exists l, "queries"
    end;
    (split; [assumption|]; split; [now left + now right|]);
    sent_one; f_equal; dict_lookup.
Qed.

(** The scenario of the specification for an upstream failure, through
    [search_papers]. *)
Example search_papers_rate_limited :
  outcome (search_papers (PStr "quantum") Defaults.search_papers 25 0
             PNone PNone PNone) (stub_world rate_limited)
  = inl (RuntimeError
           "Semantic Scholar API error 429 for https://api.semanticscholar.org/graph/v1/paper/search: {'message': 'rate limited'}").
Proof. vm_compute. reflexivity. Qed.

(** A lookup whose upstream answers with a JSON object returns that
    object as JSON text. *)
Example get_paper_round_trip :
  outcome (get_paper (PStr "DOI:10.1/xyz") Defaults.get_paper)
    (stub_world (mkResponse 200 "..."
                   (Some (PDict [("paperId", PStr "p1"); ("year", PInt 2017)]))))
  = inr ("{" ++ Json.dumps_str "paperId" ++ ": " ++ Json.dumps_str "p1" ++ ", "
         ++ Json.dumps_str "year" ++ ": 2017}").
Proof. vm_compute. reflexivity. Qed.

End Stripping.

(** * Further properties *)

(** ** White space *)

Section Stripping_facts.

Lemma lstrip_clean_start (s : string) : clean_start (PyStr.lstrip s) = true.
Proof.
  induction s as [|c s IH]; simpl; [reflexivity|].
  destruct (PyStr.isspace c) eqn:E; [exact IH | simpl; now rewrite E].
Qed.

Lemma lstrip_of_clean_start (s : string) :
  clean_start s = true -> PyStr.lstrip s = s.
Proof.
  destruct s as [|c s]; simpl; [reflexivity|].
  intros H. apply negb_true_iff in H. now rewrite H.
Qed.

Lemma rstrip_clean_start (s : string) :
  clean_start s = true -> clean_start (PyStr.rstrip s) = true.
Proof.
  destruct s as [|c s]; simpl; [reflexivity|]. intros H.
  destruct (PyStr.rstrip s); simpl; [|exact H].
  apply negb_true_iff in H. rewrite H. simpl. now rewrite H.
Qed.

Lemma rstrip_clean_end (s : string) : clean_end (PyStr.rstrip s) = true.
Proof.
  induction s as [|c s IH]; simpl; [reflexivity|].
  destruct (PyStr.rstrip s) as [|d r] eqn:E.
  - destruct (PyStr.isspace c) eqn:Ec; simpl; [reflexivity | now rewrite Ec].
  - exact IH.
Qed.

Lemma rstrip_of_clean_end (s : string) :
  clean_end s = true -> PyStr.rstrip s = s.
Proof.
  induction s as [|c s IH]; [reflexivity|].
  destruct s as [|d r].
  - simpl. intros H. apply negb_true_iff in H. now rewrite H.
  - intros H. change (clean_end (String d r) = true) in H.
    specialize (IH H). cbn [PyStr.rstrip] in *. now rewrite IH.
Qed.

Lemma rstrip_empty (s : string) :
  PyStr.rstrip s = EmptyString <-> all_chars PyStr.isspace s = true.
Proof.
  induction s as [|c s IH]; simpl; [tauto|].
  destruct (PyStr.rstrip s) as [|d r].
  - destruct (PyStr.isspace c); simpl.
    + split; [intros _; now apply IH | reflexivity].
    + split; discriminate.
  - split; [discriminate|]. intros H. apply andb_true_iff in H as [_ H].
    apply IH in H. discriminate.
Qed.

Lemma lstrip_all_space (s : string) :
  all_chars PyStr.isspace (PyStr.lstrip s) = all_chars PyStr.isspace s.
Proof.
  induction s as [|c s IH]; simpl; [reflexivity|].
  destruct (PyStr.isspace c) eqn:E; simpl; [exact IH | now rewrite E].
Qed.

(** [s.strip()] is empty exactly when [s] has white space only. *)
Lemma strip_empty (s : string) :
  PyStr.strip s = EmptyString <-> all_chars PyStr.isspace s = true.
Proof.
  unfold PyStr.strip. rewrite rstrip_empty, lstrip_all_space. tauto.
Qed.

Lemma strip_clean (s : string) :
  clean_start (PyStr.strip s) = true /\ clean_end (PyStr.strip s) = true.
Proof.
  unfold PyStr.strip. split;
    [apply rstrip_clean_start, lstrip_clean_start | apply rstrip_clean_end].
Qed.

Lemma strip_of_clean (s : string) :
  clean_start s = true -> clean_end s = true -> PyStr.strip s = s.
Proof.
  intros Hs He. unfold PyStr.strip.
  now rewrite (lstrip_of_clean_start s Hs), (rstrip_of_clean_end s He).
Qed.

Lemma strip_idempotent (s : string) :
  PyStr.strip (PyStr.strip s) = PyStr.strip s.
Proof. destruct (strip_clean s). now apply strip_of_clean. Qed.

Lemma nonempty_true (s : string) : Py.nonempty s = true <-> s <> EmptyString.
Proof.
  unfold Py.nonempty. destruct s; simpl; split;
    try discriminate; try reflexivity; try congruence.
Qed.

End Stripping_facts.

(** ** One run of a tool *)

Section Runs.

Variables (method path : string) (params body : option Dict) (w : World).

Lemma run_raise {A} (e : PyExc) : @raise A e w = (inl e, w).
Proof. reflexivity. Qed.

Lemma outcome_raise {A} (e : PyExc) : outcome (@raise A e) w = inl e.
Proof. reflexivity. Qed.

Lemma calls_raise {A} (e : PyExc) : calls (@raise A e) w = [].
Proof. now apply (calls_none _ w (inl e)). Qed.

Lemma outcome_request :
  outcome (data <- _request_json method path params body ;; ret (Json.dumps data)) w
  = dumped (gateway_result (request_url path)
              (upstream w (gateway_call w method path params body))).
Proof. unfold outcome. now rewrite request_and_dump_run. Qed.

Lemma calls_request :
  calls (data <- _request_json method path params body ;; ret (Json.dumps data)) w
  = [gateway_call w method path params body].
Proof. eapply calls_of_run; [apply request_and_dump_run | reflexivity]. Qed.

Lemma world_request :
  snd ((data <- _request_json method path params body ;; ret (Json.dumps data)) w)
  = log w (gateway_call w method path params body).
Proof. now rewrite request_and_dump_run. Qed.


End Runs.

(** Case analysis on the guards of the tool in the goal: each guard either
    raises or lets the run go on. *)
Ltac split_guards :=
  repeat match goal with
    | |- context [bind (require_str ?v ?e) ?k] =>
        let H := fresh "Hguard" in
        destruct (not_a_nonblank_str v) eqn:H;
        [ rewrite (require_str_fail v e H), bind_raise
        | let s := fresh "s" in
          let Hs := fresh "Hs" in
          destruct (guarded_str_pass v e k H) as (s & Hs & ->);
          cbv beta ]
    | |- context [bind (require_str_list ?v ?b ?e1 ?e2 ?e3) ?k] =>
        let H := fresh "Hguard" in
        destruct (good_str_list b v) eqn:H;
        [ let l := fresh "l" in
          let Hl := fresh "Hl" in
          destruct (guarded_list_pass v b e1 e2 e3 k H) as (l & Hl & ->);
          cbv beta
        | let e := fresh "e" in
          let Hin := fresh "Hin" in
          destruct (require_str_list_fail v b e1 e2 e3 H) as (e & Hin & ->);
          rewrite bind_raise;
          destruct Hin as [<- | [<- | [<- | []]]] ]
    | |- context [bind (raise_if ?b ?e) ?k] =>
        let H := fresh "Hguard" in
        destruct b eqn:H; cbn [raise_if];
        [ rewrite bind_raise | rewrite bind_ret ]
    end;
  cbv zeta.

Ltac unfold_tools :=
  cbn [call_tool];
  unfold get_paper, get_papers_batch, search_papers, search_papers_bulk,
    search_papers_match, paper_autocomplete, get_paper_authors,
    get_paper_citations, get_paper_references, paper_listing, get_author,
    get_authors_batch, search_authors, get_author_papers, snippet_search,
    paging.

Ltac run_tool :=
  rewrite ?outcome_raise, ?calls_raise, ?run_raise,
    ?outcome_request, ?calls_request, ?world_request.

Section Every_tool.

Variables (c : ToolCall) (w : World).


End Every_tool.

Section Every_tool_more.

Variables (c : ToolCall) (w : World).




End Every_tool_more.

(** ** What every request looks like *)

Ltac dict_side :=
  solve [ repeat first
            [ rewrite get_set_norm_other by reflexivity
            | rewrite get_set_if_other by reflexivity
            | rewrite get_set_other by reflexivity ];
          reflexivity ].

Ltac dict_walk :=
  rewrite ?carried_params, ?carried_body;
  repeat first
    [ rewrite get_set_norm_other by reflexivity
    | rewrite get_set_if_other by reflexivity
    | rewrite get_set_other by reflexivity
    | rewrite get_set_same
    | rewrite get_set_norm_same by dict_side ].

Ltac the_request :=
  cbn [In]; let H := fresh "Hin" in
  intros H; first [ contradiction | destruct H as [<- | []] ].

Section Request_shape.

Variables (c : ToolCall) (w : World) (rq : HttpRequest).

(** X4. Every request a tool sends has the timeout 30, the headers of the
    key resolved at that time, a URL below the base address, and is either
    a GET with query parameters and no body or a POST with a body and no
    query parameters. *)
Theorem request_shape :
  In rq (calls (call_tool c) w) ->
  rq_timeout rq = 30
  /\ rq_headers rq = request_headers (_load_api_key w)
  /\ (exists rest, rq_url rq = _BASE_URL ++ "/" ++ rest)
  /\ ((rq_method rq = "GET" /\ rq_json rq = None
       /\ exists d, rq_params rq = Some d)
      \/ (rq_method rq = "POST" /\ rq_params rq = None
          /\ exists d, rq_json rq = Some d)).
Proof.
  destruct c; unfold_tools; split_guards; run_tool;
    the_request;
    (split; [reflexivity|]; split; [reflexivity|];
     split; [eexists; reflexivity|]);
    first [ left; split; [reflexivity|]; split; [reflexivity|];
            eexists; reflexivity
          | right; split; [reflexivity|]; split; [reflexivity|];
            eexists; reflexivity ].
Qed.

(** X5. Whatever the arguments, a [limit] carried by a request of any tool
    is an integer between 1 and 100 and an [offset] is an integer that is
    not negative. *)
Theorem carried_paging_is_in_range (v : PyVal) :
  In rq (calls (call_tool c) w) ->
  (Py.get (carried rq) "limit" = Some v ->
     exists z, v = PInt z /\ 1 <= z <= 100)
  /\ (Py.get (carried rq) "offset" = Some v ->
        exists z, v = PInt z /\ 0 <= z).
Proof.
  destruct c; unfold_tools; split_guards; run_tool;
    the_request;
    (split;
     try (destruct open_access_pdf); try (destruct year);
     dict_walk; cbn [Py.get String.eqb Ascii.eqb Bool.eqb];
     intros Hv; try discriminate Hv; injection Hv as <-;
     eexists; (split; [reflexivity|]);
     unfold clamp_limit, clamp_offset; lia).
Qed.

End Request_shape.

Section Selectors_sent.

Variables (c : ToolCall) (w : World) (rq : HttpRequest).

Lemma stored_selector_nonempty (norm : option string) (v : PyVal) :
  match norm with
  | Some s => if Py.nonempty s then Some (PStr s) else None
  | None => None
  end = Some v ->
  exists s, v = PStr s /\ s <> EmptyString /\ norm = Some s.
Proof.
  destruct norm as [s|]; [|discriminate].
  destruct (Py.nonempty s) eqn:E; [|discriminate].
  intros H. injection H as <-. exists s.
  split; [reflexivity|]. split; [now apply nonempty_true | reflexivity].
Qed.

(** X6. Whatever the arguments, a request of any tool that carries
    [fields], [fieldsOfStudy] or [authors] carries a non-empty string
    there: an empty selector is left out, never sent. *)
Theorem carried_selector_is_never_empty (k : string) (v : PyVal) :
  In rq (calls (call_tool c) w) ->
  k = "fields" \/ k = "fieldsOfStudy" \/ k = "authors" ->
  Py.get (carried rq) k = Some v ->
  exists s, v = PStr s /\ s <> EmptyString.
Proof.
  intros Hin Hk. revert Hin.
  assert (Hfin : forall norm,
             match norm with
             | Some s => if Py.nonempty s then Some (PStr s) else None
             | None => None
             end = Some v -> exists s, v = PStr s /\ s <> EmptyString).
  { intros norm H. destruct (stored_selector_nonempty norm v H) as (s & ? & ? & _).
    now exists s. }
  destruct Hk as [-> | [-> | ->]];
    destruct c; unfold_tools; split_guards; run_tool; the_request;
    try (destruct open_access_pdf); try (destruct year);
    dict_walk; cbn [Py.get String.eqb Ascii.eqb Bool.eqb];
    try discriminate; try apply Hfin.
Qed.

End Selectors_sent.

(** ** More on the credential *)

Section Credential_more.

Variable w : World.

Lemma load_config_key_stripped (cfg : ConfigFile) (k : string) :
  load_config_key cfg = Some k -> PyStr.strip k = k.
Proof.
  unfold load_config_key. destruct cfg as [| |loaded]; try discriminate.
  match goal with |- context [if ?b then Some ?x else None] => destruct b end;
    [|discriminate].
  intros H. injection H as <-. apply strip_idempotent.
Qed.

Lemma load_api_key_stripped (k : string) :
  _load_api_key w = Some k -> PyStr.strip k = k.
Proof.
  unfold _load_api_key.
  destruct (getenv (environ w) "SEMANTIC_SCHOLAR_API_KEY") as [env_key|];
    [destruct (Py.nonempty env_key)|];
    try apply load_config_key_stripped.
  intros H. injection H as <-. apply strip_idempotent.
Qed.

(** X7. The headers of a call are [Accept] and, possibly, [x-api-key]; an
    [x-api-key] header holds the resolved key, which is not empty and has
    no white space around it. *)
Theorem api_key_header_is_nonempty_and_stripped (name value : string) :
  In (name, value) (request_headers (_load_api_key w)) ->
  (name = "Accept" /\ value = "application/json")
  \/ (name = "x-api-key" /\ value <> EmptyString
      /\ PyStr.strip value = value /\ _load_api_key w = Some value).
Proof.
  unfold request_headers.
  destruct (_load_api_key w) as [k|] eqn:E; cbn [Py.truthy_opt].
  - destruct (Py.nonempty k) eqn:N; cbn [app In].
    + intros [H | [H | []]]; injection H as <- <-; [now left | right].
      split; [reflexivity|]. split; [now apply nonempty_true|].
      split; [now apply load_api_key_stripped | reflexivity].
    + intros [H | []]. injection H as <- <-. now left.
  - cbn [app In]. intros [H | []]. injection H as <- <-. now left.
Qed.

(** X8. An environment variable that is set to white space only resolves
    to the empty key: the configuration file is not consulted, whatever it
    holds, and the call carries no [x-api-key] header. *)
Theorem blank_environment_value_hides_the_file (env_key : string) :
  getenv (environ w) api_key_variable = Some env_key ->
  env_key <> EmptyString ->
  all_chars PyStr.isspace env_key = true ->
  _load_api_key w = Some EmptyString
  /\ request_headers (_load_api_key w) = [("Accept", "application/json")].
Proof.
  intros Henv Hne Hblank.
  assert (H : _load_api_key w = Some EmptyString).
  { unfold _load_api_key. fold api_key_variable. rewrite Henv.
    apply nonempty_true in Hne. rewrite Hne.
    apply strip_empty in Hblank. now rewrite Hblank. }
  split; [exact H | now rewrite H].
Qed.

(** X9. With the variable unset, a key is resolved exactly when the
    configuration file loads as a mapping whose [semantic_scholar] entry is
    a mapping whose [api_key] entry is true; the key is the text of that
    entry, stripped. *)
Theorem config_key_is_found_exactly_in_a_nested_mapping (k : string) :
  getenv (environ w) api_key_variable = None ->
  (_load_api_key w = Some k
   <-> exists d d' v,
         config_yaml w = CfgLoaded (PDict d)
         /\ Py.get d "semantic_scholar" = Some (PDict d')
         /\ Py.get d' "api_key" = Some v
         /\ Py.truthy v = true
         /\ k = PyStr.strip (Py.str v)).
Proof.
  intros Henv. unfold _load_api_key. fold api_key_variable. rewrite Henv.
  split.
  - destruct (config_yaml w) as [| |loaded]; try discriminate.
    destruct loaded as [|b|z|s|l|l|d];
      try (rewrite load_config_key_not_dict by reflexivity; discriminate).
    unfold load_config_key.
    assert (Hd : (if Py.truthy (PDict d) then PDict d else PDict []) = PDict d)
      by (destruct d; reflexivity).
    rewrite Hd. unfold Py.get_default.
    destruct (Py.get d "semantic_scholar") as [key|] eqn:Ek; [|discriminate].
    destruct key as [|b|z|s|l|l|d']; try discriminate.
    destruct (Py.get d' "api_key") as [v|] eqn:Ev; [|discriminate].
    destruct (Py.truthy v) eqn:Tv; [|discriminate].
    intros H. injection H as <-. exists d, d', v. now repeat split.
  - intros (d & d' & v & -> & Ek & Ev & Tv & ->). unfold load_config_key.
    assert (Hd : (if Py.truthy (PDict d) then PDict d else PDict []) = PDict d)
      by (destruct d; reflexivity).
    rewrite Hd. unfold Py.get_default. now rewrite Ek, Ev, Tv.
Qed.

End Credential_more.

Lemma api_key_header_is_nonempty_and_stripped_witness :
  In ("x-api-key", "env-key") (request_headers (_load_api_key keyed_world))
  /\ PyStr.strip "env-key" = "env-key".
Proof.
  assert (H : In ("x-api-key", "env-key")
                (request_headers (_load_api_key keyed_world)))
    by (right; left; reflexivity).
  split; [exact H|].
  destruct (api_key_header_is_nonempty_and_stripped keyed_world _ _ H)
    as [[E _] | (_ & _ & Hs & _)]; [discriminate E | exact Hs].
Defined.

Lemma blank_environment_value_hides_the_file_witness :
  getenv (environ (reconfigure [(api_key_variable, "   ")]
                     (config_with_key (PStr "file-key")) keyed_world))
    api_key_variable = Some "   "
  /\ request_headers
       (_load_api_key (reconfigure [(api_key_variable, "   ")]
                         (config_with_key (PStr "file-key")) keyed_world))
     = [("Accept", "application/json")].
Proof.
  split; [reflexivity|].
  apply (blank_environment_value_hides_the_file
           (reconfigure [(api_key_variable, "   ")]
              (config_with_key (PStr "file-key")) keyed_world) "   ");
    [reflexivity | discriminate | reflexivity].
Defined.

Lemma config_key_is_found_exactly_in_a_nested_mapping_witness :
  getenv (environ (reconfigure [] (config_with_key (PInt 12345)) keyed_world))
    api_key_variable = None
  /\ _load_api_key (reconfigure [] (config_with_key (PInt 12345)) keyed_world)
     = Some "12345".
Proof.
  split; [reflexivity|].
  apply (config_key_is_found_exactly_in_a_nested_mapping
           (reconfigure [] (config_with_key (PInt 12345)) keyed_world)
           "12345" eq_refl).
  exists [("semantic_scholar", PDict [("api_key", PInt 12345)])],
    [("api_key", PInt 12345)], (PInt 12345).
  repeat split.
Defined.

(** ** The guards, more closely *)

Section Guard_order.

Lemma require_str_list_not_list_or_empty (v : PyVal) (bound : Z)
    (e1 e2 e3 : PyExc) :
  as_list_or_tuple v = None \/ as_list_or_tuple v = Some [] ->
  require_str_list v bound e1 e2 e3 = raise e1.
Proof. unfold require_str_list. now intros [-> | ->]. Qed.

Lemma require_str_list_too_long (v : PyVal) (bound : Z) (e1 e2 e3 : PyExc)
    (l : list PyVal) :
  0 <= bound ->
  as_list_or_tuple v = Some l -> bound < Z.of_nat (List.length l) ->
  require_str_list v bound e1 e2 e3 = raise e2.
Proof.
  intros Hb Hl Hlen. unfold require_str_list. rewrite Hl.
  destruct l as [|x l]; [simpl in Hlen; lia|].
  apply Z.ltb_lt in Hlen. rewrite Hlen. reflexivity.
Qed.

Lemma require_str_list_bad_item (v : PyVal) (bound : Z) (e1 e2 e3 : PyExc)
    (l : list PyVal) (x : PyVal) :
  as_list_or_tuple v = Some l -> Z.of_nat (List.length l) <= bound ->
  In x l -> not_a_nonblank_str x = true ->
  require_str_list v bound e1 e2 e3 = raise e3.
Proof.
  intros Hl Hlen Hin Hx. unfold require_str_list. rewrite Hl.
  destruct l as [|y l]; [contradiction|].
  apply Z.ltb_ge in Hlen. rewrite Hlen. cbn [List.length Nat.eqb raise_if].
  rewrite !bind_ret. apply clean_items_fail.
  apply not_true_is_false. intros F. rewrite forallb_forall in F.
  specialize (F x Hin). now rewrite Hx in F.
Qed.

Variables (c : ToolCall) (name : string) (v : PyVal) (bound : Z) (w : World).

(** X10. The guards of a list-bearing tool are checked in order: an
    argument that is not a list or tuple, or is empty, is refused as such;
    one longer than the bound is refused for its length, whatever its
    items; a bad item is reported only for a list within the bound. *)
Theorem list_guards_are_checked_in_order :
  list_parameter c = Some (name, v, bound) ->
  (as_list_or_tuple v = None \/ as_list_or_tuple v = Some [] ->
     exists msg, outcome (call_tool c) w = inl (ValueError msg)
                 /\ PyStr.contains msg "must be a non-empty list of strings")
  /\ (forall l, as_list_or_tuple v = Some l -> bound < Z.of_nat (List.length l) ->
        exists msg, outcome (call_tool c) w = inl (ValueError msg)
                    /\ PyStr.contains msg
                         ("cannot exceed " ++ PyStr.of_Z bound ++ " items"))
  /\ (forall l x, as_list_or_tuple v = Some l ->
        Z.of_nat (List.length l) <= bound ->
        In x l -> not_a_nonblank_str x = true ->
        exists msg, outcome (call_tool c) w = inl (ValueError msg)
                    /\ PyStr.contains msg ("Every item in '" ++ name ++ "'")).
Proof.
  intros Hc.
  destruct c; simpl in Hc; try discriminate; injection Hc as <- <- <-;
    unfold_tools;
    ((split; [|split]);
    [ intros H; rewrite (require_str_list_not_list_or_empty _ _ _ _ _ H)
    | intros l Hl Hlen;
      match goal with
      | |- context [require_str_list ?a ?b ?e1 ?e2 ?e3] =>
          rewrite (require_str_list_too_long a b e1 e2 e3 l ltac:(lia) Hl Hlen)
      end
    | intros l x Hl Hlen Hin Hx;
      rewrite (require_str_list_bad_item _ _ _ _ _ l x Hl Hlen Hin Hx) ]);
    rewrite bind_raise, outcome_raise;
    (eexists; split; [reflexivity|]);
    apply containsb_sound; vm_compute; reflexivity.
Qed.

End Guard_order.

Lemma list_guards_are_checked_in_order_witness :
  list_parameter (SearchPapersBulk (PList (repeat (PStr " ") 101)) PNone 25 0)
  = Some ("queries", PList (repeat (PStr " ") 101), 100)
  /\ outcome (search_papers_bulk (PList (repeat (PStr " ") 101)) PNone 25 0)
       (stub_world empty_ok)
     = inl (ValueError "Parameter 'queries' cannot exceed 100 items.").
Proof.
  split; [reflexivity|].
  destruct (list_guards_are_checked_in_order
              (SearchPapersBulk (PList (repeat (PStr " ") 101)) PNone 25 0)
              "queries" (PList (repeat (PStr " ") 101)) 100
              (stub_world empty_ok) eq_refl) as (_ & Hlong & _).
  destruct (Hlong (repeat (PStr " ") 101) eq_refl) as (msg & Hout & _).
  - rewrite repeat_length. lia.
  - pose proof Hout as Hmsg. vm_compute in Hmsg. injection Hmsg as <-.
    exact Hout.
Defined.

Section Strings_sent.


Lemma stripped_guarded (s : string) :
  not_a_nonblank_str (PStr s) = false ->
  PyStr.strip s <> EmptyString
  /\ PyStr.strip (PyStr.strip s) = PyStr.strip s.
Proof.
  cbn [not_a_nonblank_str]. intros H. apply negb_false_iff in H.
  split; [now apply nonempty_true | apply strip_idempotent].
Qed.

Variables (c : ToolCall) (w : World).


End Strings_sent.

Section Items_sent.

Lemma stripped_of_good_items (l : list PyVal) :
  forallb (fun x => negb (not_a_nonblank_str x)) l = true ->
  List.length (stripped l) = List.length l
  /\ Forall (fun s => s <> EmptyString /\ PyStr.strip s = s) (stripped l).
Proof.
  induction l as [|x l IH]; cbn [forallb stripped List.length];
    [split; [reflexivity | constructor]|].
  intros H. apply andb_true_iff in H as [Hx Hl]. apply negb_true_iff in Hx.
  destruct (IH Hl) as [Hlen Hall].
  destruct x; try discriminate Hx. cbn [List.length].
  split; [now rewrite Hlen|]. constructor; [|exact Hall].
  now apply stripped_guarded.
Qed.

Variables (c : ToolCall) (w : World).

(** X12. A list-bearing tool whose list is accepted sends one string per
    item, in order: the items stripped, each non-empty and free of
    surrounding white space, between one and the bound in number. *)
Theorem list_items_sent_one_for_one (name : string) (v : PyVal) (bound : Z) :
  list_parameter c = Some (name, v, bound) ->
  good_str_list bound v = true ->
  exists l key,
    as_list_or_tuple v = Some l
    /\ (key = "ids" \/ key = "queries")
    /\ map (fun rq => Py.get (carried rq) key) (calls (call_tool c) w)
       = [Some (PList (map PStr (stripped l)))]
    /\ List.length (stripped l) = List.length l
    /\ 1 <= Z.of_nat (List.length (stripped l)) <= bound
    /\ Forall (fun s => s <> EmptyString /\ PyStr.strip s = s) (stripped l).
Proof.
  intros Hc Hgood.
  destruct (list_items_are_stripped c name v bound w Hc Hgood)
    as (l & key & Hl & Hkey & Hsent).
  exists l, key. split; [exact Hl|]. split; [exact Hkey|]. split; [exact Hsent|].
  unfold good_str_list in Hgood. rewrite Hl in Hgood.
  apply andb_true_iff in Hgood as [Hgood Hitems].
  apply andb_true_iff in Hgood as [Hne Hlen].
  destruct (stripped_of_good_items l Hitems) as [Hsame Hall].
  split; [exact Hsame|]. split; [|exact Hall].
  rewrite Hsame. apply Z.leb_le in Hlen.
  destruct l; [discriminate Hne | cbn [List.length] in *; lia].
Qed.

(** X13. A [query] or [title] carried by a request of any tool other than
    [search_papers] is a non-empty string with no white space around
    it. *)
Theorem guarded_query_is_sent_stripped_and_nonempty (rq : HttpRequest)
    (k : string) (v : PyVal) :
  is_search_papers c = false ->
  In rq (calls (call_tool c) w) ->
  k = "query" \/ k = "title" ->
  Py.get (carried rq) k = Some v ->
  exists s, v = PStr s /\ s <> EmptyString /\ PyStr.strip s = s.
Proof.
  intros Hsp Hin Hk. revert Hin.
  destruct Hk as [-> | ->];
    destruct c; try discriminate Hsp;
    unfold_tools; split_guards; run_tool; the_request;
    try (destruct year);
    dict_walk; cbn [Py.get String.eqb Ascii.eqb Bool.eqb];
    try discriminate;
    (intros Hv; injection Hv as <-; subst;
     eexists; split; [reflexivity|]; now apply stripped_guarded).
Qed.

End Items_sent.

Lemma list_items_sent_one_for_one_witness :
  good_str_list 1000 (PTuple [PStr " a "; PStr "b"]) = true
  /\ map (fun rq => Py.get (carried rq) "ids")
       (calls (get_authors_batch (PTuple [PStr " a "; PStr "b"]) PNone)
          (stub_world empty_ok))
     = [Some (PList [PStr "a"; PStr "b"])].
Proof.
  split; [reflexivity|].
  destruct (list_items_sent_one_for_one
              (GetAuthorsBatch (PTuple [PStr " a "; PStr "b"]) PNone)
              (stub_world empty_ok) "author_ids" _ 1000 eq_refl eq_refl)
    as (l & key & Hl & Hkey & Hsent & _).
  injection Hl as <-.
  destruct Hkey as [-> | ->]; [exact Hsent | vm_compute in Hsent; discriminate].
Defined.

Lemma guarded_query_is_sent_stripped_and_nonempty_witness :
  In (gateway_call (stub_world empty_ok) "GET" "/paper/autocomplete"
        (Some [("query", PStr "graph"); ("limit", PInt 10)]) None)
    (calls (paper_autocomplete (PStr "  graph ") 10) (stub_world empty_ok))
  /\ PyStr.strip "graph" = "graph".
Proof.
  assert (H : In (gateway_call (stub_world empty_ok) "GET" "/paper/autocomplete"
                    (Some [("query", PStr "graph"); ("limit", PInt 10)]) None)
                (calls (call_tool (PaperAutocomplete (PStr "  graph ") 10))
                   (stub_world empty_ok)))
    by (left; reflexivity).
  split; [exact H|].
  destruct (guarded_query_is_sent_stripped_and_nonempty
              (PaperAutocomplete (PStr "  graph ") 10) (stub_world empty_ok)
              _ "query" (PStr "graph") eq_refl H (or_introl eq_refl) eq_refl)
    as (s & Hs & _ & Hstrip).
  injection Hs as <-. exact Hstrip.
Defined.

(** ** Identifiers in the path *)

Section Quoting.







Variables (c : ToolCall) (w : World).


End Quoting.


(** ** Calls one after another *)

Section Independence.





End Independence.

(** ** Optional parameters *)

Section Optional_keys.

Lemma get_set_if_same (b : bool) (d : Dict) (k : string) (v : PyVal) :
  Py.get d k = None ->
  Py.get (Py.set_if b d k v) k = if b then Some v else None.
Proof. intros H. destruct b; cbn [Py.set_if]; [apply get_set_same | exact H]. Qed.

Variable w : World.

(** X16. The optional [year] of [search_papers], [sort] of
    [get_author_papers] and [venue] of [search_papers_match] are sent as
    text when the argument is true, and left out when it is [None] or
    empty. *)
Theorem optional_text_is_sent_when_true :
  (forall query fields limit offset year open_access_pdf fields_of_study,
      map (fun rq => Py.get (carried rq) "year")
        (calls (search_papers query fields limit offset year open_access_pdf
                  fields_of_study) w)
      = [if Py.truthy year then Some (PStr (Py.str year)) else None])
  /\ (forall author_id fields limit offset sort,
         not_a_nonblank_str author_id = false ->
         map (fun rq => Py.get (carried rq) "sort")
           (calls (get_author_papers author_id fields limit offset sort) w)
         = [if Py.truthy sort then Some (PStr (Py.str sort)) else None])
  /\ (forall title authors year venue fields limit,
         not_a_nonblank_str title = false -> bad_year year = false ->
         map (fun rq => Py.get (carried rq) "venue")
           (calls (search_papers_match title authors year venue fields limit) w)
         = [if Py.truthy venue then Some (PStr (Py.str venue)) else None]).
Proof.
  split; [|split].
  - intros. unfold_tools. run_tool. cbn [map]. f_equal.
    rewrite carried_params, get_set_norm_other by reflexivity.
    destruct open_access_pdf; rewrite ?get_set_other by reflexivity;
      (rewrite get_set_if_same; [reflexivity | dict_side]).
  - intros author_id fields limit offset sort Hg. unfold_tools.
    pass_guards. run_tool. cbn [map]. f_equal.
    rewrite carried_params, get_set_norm_other by reflexivity.
    now rewrite get_set_if_same.
  - intros title authors year venue fields limit Hg Hy. unfold_tools.
    pass_guards. rewrite Hy. cbn [raise_if]. rewrite bind_ret. run_tool.
    cbn [map]. f_equal.
    rewrite carried_body, get_set_norm_other by reflexivity.
    rewrite get_set_if_same; [reflexivity|].
    destruct year; dict_side.
Qed.

(** X17. [search_papers_match] sends [year] exactly when it is given, as an
    integer that is not negative; a boolean counts as the integer 0 or
    1. *)
Theorem match_year_is_sent_as_non_negative_integer
    (title authors year venue fields : PyVal) (limit : Z) :
  not_a_nonblank_str title = false ->
  bad_year year = false ->
  map (fun rq => Py.get (carried rq) "year")
    (calls (search_papers_match title authors year venue fields limit) w)
  = [match year with
     | PNone => None
     | _ => Some (PInt (int_of year))
     end]
  /\ 0 <= int_of year
  /\ (year = PNone \/ year = PInt (int_of year)
      \/ exists b, year = PBool b /\ int_of year = Py.int_of_bool b).
Proof.
  intros Hg Hy. split; [|split].
  - unfold_tools. pass_guards. rewrite Hy. cbn [raise_if]. rewrite bind_ret.
    run_tool. cbn [map]. f_equal.
    rewrite carried_body, get_set_norm_other by reflexivity.
    rewrite get_set_if_other by reflexivity.
    destruct year; rewrite ?get_set_same; try reflexivity. dict_side.
  - destruct year as [|b|z| | | |]; try discriminate Hy;
      cbn [bad_year] in Hy; cbn [int_of Py.int_of_bool];
      [lia | destruct b; lia | now apply Z.ltb_ge in Hy].
  - destruct year; try discriminate Hy;
      [now left | right; right; now exists b | right; now left].
Qed.

End Optional_keys.

Lemma optional_text_is_sent_when_true_witness :
  map (fun rq => Py.get (carried rq) "sort")
    (calls (get_author_papers (PStr "1741101") PNone 10 0 (PStr EmptyString))
       (stub_world empty_ok)) = [None]
  /\ map (fun rq => Py.get (carried rq) "venue")
       (calls (search_papers_match (PStr "t") PNone PNone (PStr "NeurIPS") PNone 5)
          (stub_world empty_ok)) = [Some (PStr "NeurIPS")].
Proof.
  destruct (optional_text_is_sent_when_true (stub_world empty_ok))
    as (_ & Hsort & Hvenue).
  split.
  - exact (Hsort (PStr "1741101") PNone 10 0 (PStr EmptyString) eq_refl).
  - exact (Hvenue (PStr "t") PNone PNone (PStr "NeurIPS") PNone 5
             eq_refl eq_refl).
Defined.

Lemma match_year_is_sent_as_non_negative_integer_witness :
  bad_year (PBool true) = false
  /\ map (fun rq => Py.get (carried rq) "year")
       (calls (search_papers_match (PStr "t") PNone (PBool true) PNone PNone 5)
          (stub_world empty_ok)) = [Some (PInt 1)].
Proof.
  split; [reflexivity|].
  exact (proj1 (match_year_is_sent_as_non_negative_integer
                  (stub_world empty_ok) (PStr "t") PNone (PBool true) PNone
                  PNone 5 eq_refl eq_refl)).
Defined.

(** ** The text of an upstream error *)

Section Error_text.

Lemma repr_plain_char (x : ascii) :
  plain_char x = true ->
  Py.repr_char Py.squote x = Py.chr x
  /\ Ascii.eqb x Py.squote = false.
Proof.
  destruct x as [[] [] [] [] [] [] [] []]; vm_compute;
    intros H; first [discriminate H | split; reflexivity].
Qed.

Lemma repr_plain_text (t : string) :
  all_chars plain_char t = true ->
  Py.repr_str t = String Py.squote (t ++ Py.chr Py.squote).
Proof.
  intros H.
  assert (Hmem : PyStr.mem Py.squote t = false /\ Py.repr_chars Py.squote t = t).
  { induction t as [|x t IH]; [split; reflexivity|].
    cbn [all_chars] in H. apply andb_true_iff in H as [Hx Ht].
    destruct (IH Ht) as [Hm Hr]. destruct (repr_plain_char x Hx) as [Hc Hq].
    cbn [PyStr.mem Py.repr_chars]. rewrite Hq, Hm, Hc, Hr. split; reflexivity. }
  destruct Hmem as [Hm Hr]. unfold Py.repr_str. rewrite Hm. cbn [andb].
  now rewrite Hr.
Qed.

Variables (method path : string) (params body : option Dict) (w : World)
  (resp : Response).

(** X18. When an error answer does not parse as JSON and its text has
    printable ASCII characters only, none of them a quote or a backslash,
    the message of the [RuntimeError] ends with that text as it is, inside
    [{'message': '...'}]. *)
Theorem unparsed_plain_error_body_is_quoted_in_message :
  upstream w (gateway_call w method path params body) = inr resp ->
  is_2xx (status_code resp) = false ->
  json resp = None ->
  all_chars plain_char (text resp) = true ->
  outcome (_request_json method path params body) w
  = inl (RuntimeError
           ("Semantic Scholar API error " ++ PyStr.of_Z (status_code resp)
            ++ " for " ++ request_url path
            ++ ": {'message': '" ++ text resp ++ "'}")).
Proof.
  intros Hup Hst Hj Hplain. unfold outcome.
  rewrite request_json_run. cbv zeta. rewrite Hup. cbn [fst gateway_result].
  rewrite Hst. unfold error_message, error_payload. rewrite Hj.
  cbn [Py.str Py.repr PyStr.join]. rewrite (repr_plain_text _ Hplain).
  do 3 f_equal. cbn. rewrite !append_assoc. reflexivity.
Qed.

End Error_text.

Lemma unparsed_plain_error_body_is_quoted_in_message_witness :
  all_chars plain_char "Bad Gateway" = true
  /\ outcome (_request_json "GET" "/paper/p1" (Some []) None)
       (stub_world (mkResponse 502 "Bad Gateway" None))
     = inl (RuntimeError
              "Semantic Scholar API error 502 for https://api.semanticscholar.org/graph/v1/paper/p1: {'message': 'Bad Gateway'}").
Proof.
  split; [reflexivity|].
  exact (unparsed_plain_error_body_is_quoted_in_message "GET" "/paper/p1"
           (Some []) None (stub_world (mkResponse 502 "Bad Gateway" None))
           (mkResponse 502 "Bad Gateway" None) eq_refl eq_refl eq_refl eq_refl).
Defined.

(** ** Instances *)


Lemma request_shape_witness :
  In (gateway_call (stub_world empty_ok) "POST" "/paper/search/bulk" None
        (Some [("queries", PList [PStr "graphs"]); ("limit", PInt 25);
               ("offset", PInt 0)]))
    (calls (search_papers_bulk (PList [PStr "graphs"]) PNone 25 0)
       (stub_world empty_ok))
  /\ rq_timeout
       (gateway_call (stub_world empty_ok) "POST" "/paper/search/bulk" None
          (Some [("queries", PList [PStr "graphs"]); ("limit", PInt 25);
                 ("offset", PInt 0)])) = 30.
Proof.
  assert (H : In (gateway_call (stub_world empty_ok) "POST" "/paper/search/bulk"
                    None
                    (Some [("queries", PList [PStr "graphs"]); ("limit", PInt 25);
                           ("offset", PInt 0)]))
                (calls (call_tool (SearchPapersBulk (PList [PStr "graphs"]) PNone
                                     25 0)) (stub_world empty_ok)))
    by (left; reflexivity).
  split; [exact H|].
  exact (proj1 (request_shape _ _ _ H)).
Defined.

Lemma carried_paging_is_in_range_witness :
  In (gateway_call (stub_world empty_ok) "GET" "/paper/autocomplete"
        (Some [("query", PStr "graph"); ("limit", PInt 100)]) None)
    (calls (paper_autocomplete (PStr "graph") 5000) (stub_world empty_ok))
  /\ exists z, PInt 100 = PInt z /\ 1 <= z <= 100.
Proof.
  assert (H : In (gateway_call (stub_world empty_ok) "GET" "/paper/autocomplete"
                    (Some [("query", PStr "graph"); ("limit", PInt 100)]) None)
                (calls (call_tool (PaperAutocomplete (PStr "graph") 5000))
                   (stub_world empty_ok)))
    by (left; reflexivity).
  split; [exact H|].
  exact (proj1 (carried_paging_is_in_range _ _ _ (PInt 100) H) eq_refl).
Defined.

Lemma carried_selector_is_never_empty_witness :
  In (gateway_call (stub_world empty_ok) "GET" "/author/1741101"
        (Some [("fields", PStr "name")]) None)
    (calls (get_author (PStr "1741101") (PList [PStr " name "; PStr " "]))
       (stub_world empty_ok))
  /\ exists s, PStr "name" = PStr s /\ s <> EmptyString.
Proof.
  assert (H : In (gateway_call (stub_world empty_ok) "GET" "/author/1741101"
                    (Some [("fields", PStr "name")]) None)
                (calls (call_tool (GetAuthor (PStr "1741101")
                                     (PList [PStr " name "; PStr " "])))
                   (stub_world empty_ok)))
    by (left; reflexivity).
  split; [exact H|].
  exact (carried_selector_is_never_empty _ _ _ "fields" (PStr "name") H
           (or_introl eq_refl) eq_refl).
Defined.

